(** * BLE peripheral manager and channel router (ble_base.py, ble_ranger.py)

    A shallow embedding of the MicroPython sources:
    - [Py]: the pieces of the Python runtime the sources rely on
      (exceptions, [str.split], [bytes.decode], [bytearray], [int]);
    - [Advertising], [BLECharacteristic], [BLEService], [BLEManager]
      from ble_base.py, over an explicit machine state (object heap,
      radio stack, output trace);
    - [BLERanger] from ble_ranger.py, whose [on_write] closure is the
      write callback of one characteristic of the manager.

    Python objects that are mutated through several references (the
    characteristics, reachable from a service and from the handle
    registry) live in a heap and are named by references. *)

From Stdlib Require Import ZArith NArith Ascii String List Lia Permutation.
From stdpp Require Import base gmap sets list strings.
Import ListNotations.

Local Open Scope Z_scope.

(* ===================================================================== *)
(** * The Python runtime                                                  *)
(* ===================================================================== *)

Module Py.

(** Exceptions.  [KeyboardInterrupt] and [SystemExit] derive from
    [BaseException] only; every other class here derives from
    [Exception], so an [except Exception] clause catches it. *)
Inductive exn : Type :=
| ValueError
| IndexError
| TypeError
| UnicodeError
| OSError (errno : Z)
| UserError (what : string)
| KeyboardInterrupt
| SystemExit.

Definition is_Exception (e : exn) : bool :=
  match e with
  | KeyboardInterrupt | SystemExit => false
  | _ => true
  end.

(** [s.split(sep)] for a one-character separator: the fields between
    the separators, never an empty list. *)
Fixpoint split (sep : ascii) (s : string) : list string :=
  match s with
  | EmptyString => [EmptyString]
  | String c s' =>
      if Ascii.eqb c sep then EmptyString :: split sep s'
      else match split sep s' with
           | [] => [String c EmptyString]
           | f :: fs => String c f :: fs
           end
  end.

(** [sep in s] *)
Fixpoint contains (sep : ascii) (s : string) : bool :=
  match s with
  | EmptyString => false
  | String c s' => Ascii.eqb c sep || contains sep s'
  end.

(** The text of [s] before the first [sep] (all of [s] if there is none). *)
Fixpoint upto (sep : ascii) (s : string) : string :=
  match s with
  | EmptyString => EmptyString
  | String c s' => if Ascii.eqb c sep then EmptyString else String c (upto sep s')
  end.

(** [bytes.decode()]: the runtime stores a [str] as its UTF-8 bytes, so
    decoding checks that the bytes are well formed and keeps them.  A
    lead byte 0xC0..0xF7 announces one to three continuation bytes
    0x80..0xBF; 0x80..0xBF and 0xF8..0xFF cannot start a character. *)
Definition is_cont (b : N) : bool := ((128 <=? b) && (b <? 192))%N.

Definition lead_need (b : N) : nat :=
  N.to_nat (N.land (N.shiftr 229 (N.land (N.shiftr b 3) 6)) 3).

Fixpoint utf8_check_from (need : nat) (s : string) : bool :=
  match s with
  | EmptyString => Nat.eqb need 0
  | String c s' =>
      let b := N_of_ascii c in
      match need with
      | S n => if is_cont b then utf8_check_from n s' else false
      | O =>
          if (192 <=? b)%N then
            if (248 <=? b)%N then false else utf8_check_from (lead_need b) s'
          else if (128 <=? b)%N then false
          else utf8_check_from 0 s'
      end
  end.

Definition utf8_check (s : string) : bool := utf8_check_from 0 s.

(** [value.decode()]: [None] stands for [UnicodeError]. *)
Definition decode (value : string) : option string :=
  if utf8_check value then Some value else None.

(** [bytearray([...])] stores each item in one octet; the runtime does
    not check the range and keeps the low eight bits. *)
Definition bytearray (items : list Z) : list Z :=
  map (fun x => x mod 256) items.

(** The octets of a [str] / [bytes] object as numbers. *)
Fixpoint octets (s : string) : list Z :=
  match s with
  | EmptyString => []
  | String c s' => Z.of_N (N_of_ascii c) :: octets s'
  end.

(** [int(s)] on decimal text: optional blanks around, an optional
    sign, then one or more digits.  [None] stands for [ValueError].
    The router below is stated over an arbitrary conversion; this one
    serves the concrete examples. *)
Definition is_blank (c : ascii) : bool :=
  let n := N_of_ascii c in ((n =? 32) || ((9 <=? n) && (n <=? 13)))%N.

Definition digit_of (c : ascii) : option Z :=
  let n := N_of_ascii c in
  if ((48 <=? n) && (n <=? 57))%N then Some (Z.of_N n - 48) else None.

Fixpoint skip_blanks (s : string) : string :=
  match s with
  | String c s' => if is_blank c then skip_blanks s' else s
  | EmptyString => s
  end.

(** digits seen so far, accumulated value, rest of the text *)
Fixpoint digits (seen : bool) (acc : Z) (s : string) : option Z :=
  match s with
  | EmptyString => if seen then Some acc else None
  | String c s' =>
      match digit_of c with
      | Some d => digits true (10 * acc + d) s'
      | None =>
          if seen then
            match skip_blanks s with
            | EmptyString => Some acc
            | _ => None
            end
          else None
      end
  end.

Definition int (s : string) : option Z :=
  match skip_blanks s with
  | String "+"%char s' => digits false 0 s'
  | String "-"%char s' => option_map Z.opp (digits false 0 s')
  | s' => digits false 0 s'
  end.

End Py.

(* ===================================================================== *)
(** * ble_base.py: advertising payloads                                   *)
(* ===================================================================== *)

(** A [ubluetooth.UUID] object, by the bytes [bytes(uuid)] yields. *)
Definition UUID : Type := list Z.

(** [Advertising._build_adv_payload]: the loop appends one structure
    per entry of [self.service_uuids] to the flags structure. *)
Definition _build_adv_payload (service_uuids : list UUID) : list Z :=
  fold_left
    (fun payload uuid_bytes =>
       payload ++ Py.bytearray [Z.of_nat (length uuid_bytes) + 1; 7] ++ uuid_bytes)
    service_uuids
    ([] ++ Py.bytearray [2; 1; 6]).

(** [Advertising._build_scan_response] *)
Definition _build_scan_response (name : string) : list Z :=
  let name_bytes := Py.octets name in
  [] ++ Py.bytearray [Z.of_nat (length name_bytes) + 1; 9] ++ name_bytes.

(** Modelled from the spec: the reader of AD structures
    [[length][type][value]], where [length] counts the type and value
    bytes (spec 4.1); the repository only writes such payloads.  The
    result lists the (type, value) pairs in order; [None] is a
    malformed payload. *)
Fixpoint parse_ad_fuel (fuel : nat) (p : list Z) : option (list (Z * list Z)) :=
  match p with
  | [] => Some []
  | len :: rest =>
      match fuel with
      | O => None
      | S fuel' =>
          match rest with
          | [] => None
          | ty :: body =>
              let n := Z.to_nat (len - 1) in
              if (len <=? 0) || (length body <? n)%nat then None
              else option_map (cons (ty, firstn n body))
                              (parse_ad_fuel fuel' (skipn n body))
          end
      end
  end.

Definition parse_ad (p : list Z) : option (list (Z * list Z)) :=
  parse_ad_fuel (length p) p.

(** The UUID section of an advertising payload. *)
Definition uuid_section (service_uuids : list UUID) : list Z :=
  flat_map (fun u => 17 :: 7 :: u) service_uuids.

(* ===================================================================== *)
(** * State and exceptions                                                *)
(* ===================================================================== *)

(** The result of a call: a value, or a raised exception. *)
Inductive res (T : Type) : Type :=
| Ok (v : T)
| Exc (e : Py.exn).
Arguments Ok {T} v.
Arguments Exc {T} e.

(** A computation over a state [S] that may raise. *)
Definition M (S T : Type) : Type := S -> res T * S.

Definition ret {S T} (v : T) : M S T := fun s => (Ok v, s).
Definition raise {S T} (e : Py.exn) : M S T := fun s => (Exc e, s).
Definition bind {S T U} (c : M S T) (k : T -> M S U) : M S U :=
  fun s => match c s with
           | (Ok v, s') => k v s'
           | (Exc e, s') => (Exc e, s')
           end.
Definition gets {S T} (f : S -> T) : M S T := fun s => (Ok (f s), s).
Definition modify {S} (f : S -> S) : M S unit := fun s => (Ok tt, f s).

Notation "x <- c ;; k" := (bind c (fun x => k))
  (at level 100, c at next level, right associativity).
Notation "c ;; k" := (bind c (fun _ => k))
  (at level 100, right associativity).

(** [try: c  except <classes>: h]: the handler takes the exceptions for
    which [catches] holds; the others propagate. *)
Definition try_except {S T} (c : M S T) (catches : Py.exn -> bool)
    (h : Py.exn -> M S T) : M S T :=
  fun s => match c s with
           | (Ok v, s') => (Ok v, s')
           | (Exc e, s') => if catches e then h e s' else (Exc e, s')
           end.

(** [for x in l: body] *)
Fixpoint for_each {S T} (l : list T) (body : T -> M S unit) : M S unit :=
  match l with
  | [] => ret tt
  | x :: l' => body x ;; for_each l' body
  end.

(** A loop body either falls through to the next item or leaves the
    loop ([break], or [return] from inside it). *)
Inductive flow : Type := Next | Leave.

Fixpoint for_until {S T} (l : list T) (body : T -> M S flow) : M S flow :=
  match l with
  | [] => ret Next
  | x :: l' =>
      f <- body x ;;
      match f with
      | Next => for_until l' body
      | Leave => ret Leave
      end
  end.

(** [l[i]] *)
Definition subscript {S T} (l : list T) (i : nat) : M S T :=
  match nth_error l i with
  | Some x => ret x
  | None => raise Py.IndexError
  end.

(** Did the call return normally? *)
Definition returns {T S} (r : res T * S) : Prop :=
  match fst r with Ok _ => True | Exc _ => False end.

(* ===================================================================== *)
(** * ble_base.py: objects                                                *)
(* ===================================================================== *)

(** A reference to a characteristic object. *)
Definition ref : Type := nat.

(** What the sources print. *)
Inductive msg : Type :=
| AdvertisingStarted (name : string)
| AdvertisingStopped
| CentralConnected (conn_handle : Z)
| CentralDisconnected (conn_handle : Z)
| WrittenText (text : string)
| TxPowerSet (power : Z)
| TxPowerError (e : Py.exn)
| ServiceAdded (service_uuid : UUID) (handles : list (list Z))
| NotificationSent (char_uuid : UUID) (value : string)
| CharacteristicNotFound (char_uuid : UUID)
| BleShutDown
| InvalidChannelType
| UnhandledWrite (command : string)
| FailedToHandle (e : Py.exn)
| Connected
| Disconnected
| DataReceived (channel : Z) (data : string).

(** Output and callback invocations, in order. *)
Inductive event : Type :=
| Print (m : msg)
| Call_connect (conn_handle : Z)
| Call_disconnect (conn_handle : Z)
| Call_write (conn_handle : Z) (char : ref) (value : string)
| Call_channel (channel : Z) (data : string).

(** Calls made on the radio stack ([ubluetooth.BLE]). *)
Inductive stack_call : Type :=
| Active (on : bool)
| Irq
| Config_txpower (power : Z)
| Gap_advertise (interval : Z) (adv_data resp_data : list Z)
| Gap_advertise_None
| Gatts_read (attr_handle : Z)
| Gatts_register_services (service_uuid : UUID) (char_defs : list (UUID * Z))
| Gatts_notify (conn_handle attr_handle : Z) (value : string).

(** The radio stack.  The stack is an external collaborator: what it
    answers to a read, a registration and a power setting are fields
    here, so that statements range over every stack.  Advertising
    start/stop, [active] and [gatts_notify] are requests the stack
    accepts (spec 5: fire-and-forget); stopping while nothing is
    advertised changes nothing. *)
Record radio : Type := {
  active : bool;
  advertised : option (Z * list Z * list Z);
  calls : list stack_call;
  gatts_read : Z -> string;
  gatts_register_services : UUID -> list (UUID * Z) -> res (list (list Z));
  config_txpower : Z -> res unit
}.

Definition log_call (c : stack_call) (r : radio) : radio :=
  {| active := active r; advertised := advertised r;
     calls := calls r ++ [c];
     gatts_read := gatts_read r;
     gatts_register_services := gatts_register_services r;
     config_txpower := config_txpower r |}.

Definition set_active (on : bool) (r : radio) : radio :=
  {| active := on; advertised := advertised r;
     calls := calls r;
     gatts_read := gatts_read r;
     gatts_register_services := gatts_register_services r;
     config_txpower := config_txpower r |}.

Definition set_advertised (a : option (Z * list Z * list Z)) (r : radio) : radio :=
  {| active := active r; advertised := a;
     calls := calls r;
     gatts_read := gatts_read r;
     gatts_register_services := gatts_register_services r;
     config_txpower := config_txpower r |}.

Section Base.

(** The world the application's callbacks act on. *)
Context {A : Type}.

(** class BLECharacteristic.  [write_callback] is called with
    [(conn_handle, char, value)]. *)
Record BLECharacteristic : Type := {
  uuid : UUID;
  flags : Z;
  write_callback : option (Z -> ref -> string -> M A unit);
  handle : option Z;
  value : string
}.

(** class BLEService; [characteristics] holds references. *)
Record BLEService : Type := {
  service_uuid : UUID;
  characteristics : list ref
}.

(** class Advertising (its [ble] is the machine's radio). *)
Record Advertising : Type := {
  name : string;
  service_uuids : list UUID
}.

(** class BLEManager (its [ble] is the machine's radio). *)
Record BLEManager : Type := {
  advertising : Advertising;
  tx_power : Z;
  services : list BLEService;
  characteristic_handles : gmap Z ref;
  connections : gset Z;
  connect_callback : option (Z -> M A unit);
  disconnect_callback : option (Z -> M A unit)
}.

(** The whole machine: the manager object, the characteristic
    objects, the radio, what was printed and which callbacks were
    called, and the application's world. *)
Record machine : Type := {
  self : BLEManager;
  heap : ref -> BLECharacteristic;
  ble : radio;
  trace : list event;
  env : A
}.

End Base.

Arguments BLECharacteristic : clear implicits.
Arguments BLEService : clear implicits.
Arguments Advertising : clear implicits.
Arguments BLEManager : clear implicits.
Arguments machine : clear implicits.

(* ===================================================================== *)
(** * ble_base.py: methods                                                *)
(* ===================================================================== *)

Section Methods.

Context {A : Type}.

(** ** Field updates *)

Definition with_self (f : BLEManager A -> BLEManager A) (m : machine A) : machine A :=
  {| self := f (self m); heap := heap m; ble := ble m; trace := trace m; env := env m |}.
Definition with_heap (f : (ref -> BLECharacteristic A) -> ref -> BLECharacteristic A)
    (m : machine A) : machine A :=
  {| self := self m; heap := f (heap m); ble := ble m; trace := trace m; env := env m |}.
Definition with_ble (f : radio -> radio) (m : machine A) : machine A :=
  {| self := self m; heap := heap m; ble := f (ble m); trace := trace m; env := env m |}.
Definition with_trace (f : list event -> list event) (m : machine A) : machine A :=
  {| self := self m; heap := heap m; ble := ble m; trace := f (trace m); env := env m |}.
Definition with_env (f : A -> A) (m : machine A) : machine A :=
  {| self := self m; heap := heap m; ble := ble m; trace := trace m; env := f (env m) |}.

Definition with_advertising (f : Advertising -> Advertising) (s : BLEManager A) : BLEManager A :=
  {| advertising := f (advertising s); tx_power := tx_power s; services := services s;
     characteristic_handles := characteristic_handles s; connections := connections s;
     connect_callback := connect_callback s; disconnect_callback := disconnect_callback s |}.
Definition with_services (f : list BLEService -> list BLEService) (s : BLEManager A) : BLEManager A :=
  {| advertising := advertising s; tx_power := tx_power s; services := f (services s);
     characteristic_handles := characteristic_handles s; connections := connections s;
     connect_callback := connect_callback s; disconnect_callback := disconnect_callback s |}.
Definition with_characteristic_handles (f : gmap Z ref -> gmap Z ref) (s : BLEManager A) : BLEManager A :=
  {| advertising := advertising s; tx_power := tx_power s; services := services s;
     characteristic_handles := f (characteristic_handles s); connections := connections s;
     connect_callback := connect_callback s; disconnect_callback := disconnect_callback s |}.
Definition with_connections (f : gset Z -> gset Z) (s : BLEManager A) : BLEManager A :=
  {| advertising := advertising s; tx_power := tx_power s; services := services s;
     characteristic_handles := characteristic_handles s; connections := f (connections s);
     connect_callback := connect_callback s; disconnect_callback := disconnect_callback s |}.
Definition with_connect_callback (cb : option (Z -> M A unit)) (s : BLEManager A) : BLEManager A :=
  {| advertising := advertising s; tx_power := tx_power s; services := services s;
     characteristic_handles := characteristic_handles s; connections := connections s;
     connect_callback := cb; disconnect_callback := disconnect_callback s |}.
Definition with_disconnect_callback (cb : option (Z -> M A unit)) (s : BLEManager A) : BLEManager A :=
  {| advertising := advertising s; tx_power := tx_power s; services := services s;
     characteristic_handles := characteristic_handles s; connections := connections s;
     connect_callback := connect_callback s; disconnect_callback := cb |}.

Definition with_handle (h : option Z) (c : BLECharacteristic A) : BLECharacteristic A :=
  {| uuid := uuid c; flags := flags c; write_callback := write_callback c;
     handle := h; value := value c |}.
Definition with_value (v : string) (c : BLECharacteristic A) : BLECharacteristic A :=
  {| uuid := uuid c; flags := flags c; write_callback := write_callback c;
     handle := handle c; value := v |}.

(** Assignment to a field of the object [char] refers to. *)
Definition update (char : ref) (f : BLECharacteristic A -> BLECharacteristic A)
    (h : ref -> BLECharacteristic A) : ref -> BLECharacteristic A :=
  fun r => if Nat.eqb r char then f (h r) else h r.

(** ** Output, callbacks, stack calls *)

Definition emit (e : event) : M (machine A) unit :=
  modify (with_trace (fun t => t ++ [e])).

Definition print (x : msg) : M (machine A) unit := emit (Print x).

(** Run a callback on the application's world. *)
Definition call {T} (c : M A T) : M (machine A) T :=
  fun m => let (r, a) := c (env m) in (r, with_env (fun _ => a) m).

Definition ble_active (on : bool) : M (machine A) unit :=
  modify (with_ble (fun r => set_active on (log_call (Active on) r))).

Definition ble_irq : M (machine A) unit :=
  modify (with_ble (log_call Irq)).

Definition ble_config_txpower (power : Z) : M (machine A) unit :=
  modify (with_ble (log_call (Config_txpower power))) ;;
  answer <- gets (fun m => config_txpower (ble m) power) ;;
  match answer with
  | Ok _ => ret tt
  | Exc e => raise e
  end.

Definition ble_gap_advertise (interval : Z) (adv_data resp_data : list Z)
    : M (machine A) unit :=
  modify (with_ble (fun r =>
    set_advertised (Some (interval, adv_data, resp_data))
                   (log_call (Gap_advertise interval adv_data resp_data) r))).

Definition ble_gap_advertise_None : M (machine A) unit :=
  modify (with_ble (fun r => set_advertised None (log_call Gap_advertise_None r))).

Definition ble_gatts_read (attr_handle : Z) : M (machine A) string :=
  modify (with_ble (log_call (Gatts_read attr_handle))) ;;
  gets (fun m => gatts_read (ble m) attr_handle).

Definition ble_gatts_register_services (service_uuid : UUID)
    (char_defs : list (UUID * Z)) : M (machine A) (list (list Z)) :=
  modify (with_ble (log_call (Gatts_register_services service_uuid char_defs))) ;;
  answer <- gets (fun m => gatts_register_services (ble m) service_uuid char_defs) ;;
  match answer with
  | Ok handles => ret handles
  | Exc e => raise e
  end.

(** [ble.gatts_notify(conn_handle, value_handle, data)]: the handle
    must be an integer; [None] is a [TypeError] before anything is
    sent. *)
Definition ble_gatts_notify (conn_handle : Z) (value_handle : option Z)
    (data : string) : M (machine A) unit :=
  match value_handle with
  | Some h => modify (with_ble (log_call (Gatts_notify conn_handle h data)))
  | None => raise Py.TypeError
  end.

(** [value.decode()] *)
Definition decode {S} (value : string) : M S string :=
  match Py.decode value with
  | Some text => ret text
  | None => raise Py.UnicodeError
  end.

(** ** class Advertising *)

(** [Advertising.add_service_uuid] (the UUID object is passed already
    built; [ubluetooth.UUID(...)] belongs to the stack). *)
Definition add_service_uuid (uuid : UUID) : M (machine A) unit :=
  modify (with_self (with_advertising (fun a =>
    {| name := name a; service_uuids := service_uuids a ++ [uuid] |}))).

(** [Advertising.start(interval)]; the default of [interval] is 100. *)
Definition start (interval : Z) : M (machine A) unit :=
  adv_payload <- gets (fun m => _build_adv_payload (service_uuids (advertising (self m)))) ;;
  scan_response <- gets (fun m => _build_scan_response (name (advertising (self m)))) ;;
  ble_gap_advertise interval adv_payload scan_response ;;
  nm <- gets (fun m => name (advertising (self m))) ;;
  print (AdvertisingStarted nm).


(** ** class BLECharacteristic *)

Definition set_value (char : ref) (v : string) : M (machine A) unit :=
  modify (with_heap (update char (with_value v))).

Definition get_value (char : ref) : M (machine A) string :=
  gets (fun m => value (heap m char)).

(** ** class BLEService *)

Definition add_characteristic (service : BLEService) (char : ref) : BLEService :=
  {| service_uuid := service_uuid service;
     characteristics := characteristics service ++ [char] |}.

(** ** class BLEManager *)

Definition set_advertising_service (uuid : UUID) : M (machine A) unit :=
  add_service_uuid uuid.

(** [register_connect_callback] and [register_disconnect_callback]; the
    argument may be [None]. *)
Definition register_connect_callback (callback : option (Z -> M A unit))
    : M (machine A) unit :=
  modify (with_self (with_connect_callback callback)).

Definition register_disconnect_callback (callback : option (Z -> M A unit))
    : M (machine A) unit :=
  modify (with_self (with_disconnect_callback callback)).

(** [BLEManager._irq_handler(event, data)]: [data] is the tuple of the
    event; [conn_handle, *_ = data] needs one item at least and
    [conn_handle, attr_handle = data] exactly two ([ValueError]
    otherwise).  No statement of the handler is inside a [try]. *)
Definition _irq_handler (event : Z) (data : list Z) : M (machine A) unit :=
  if event =? 1 then
    match data with
    | conn_handle :: _ =>
        modify (with_self (with_connections (fun c => c ∪ {[conn_handle]}))) ;;
        print (CentralConnected conn_handle) ;;
        cb <- gets (fun m => connect_callback (self m)) ;;
        match cb with
        | Some connect_callback =>
            emit (Call_connect conn_handle) ;;
            call (connect_callback conn_handle)
        | None => ret tt
        end
    | [] => raise Py.ValueError
    end
  else if event =? 2 then
    match data with
    | conn_handle :: _ =>
        modify (with_self (with_connections (fun c => c ∖ {[conn_handle]}))) ;;
        print (CentralDisconnected conn_handle) ;;
        cb <- gets (fun m => disconnect_callback (self m)) ;;
        match cb with
        | Some disconnect_callback =>
            emit (Call_disconnect conn_handle) ;;
            call (disconnect_callback conn_handle)
        | None => ret tt
        end ;;
        start 100
    | [] => raise Py.ValueError
    end
  else if event =? 3 then
    match data with
    | [conn_handle; attr_handle] =>
        value <- ble_gatts_read attr_handle ;;
        text <- decode value ;;
        print (WrittenText text) ;;
        handles <- gets (fun m => characteristic_handles (self m)) ;;
        match handles !! attr_handle with
        | Some char =>
            cb <- gets (fun m => write_callback (heap m char)) ;;
            match cb with
            | Some write_callback =>
                emit (Call_write conn_handle char value) ;;
                call (write_callback conn_handle char value)
            | None => ret tt
            end
        | None => ret tt
        end
    | _ => raise Py.ValueError
    end
  else ret tt.

(** [BLEManager.set_tx_power] *)
Definition set_tx_power (power : Z) : M (machine A) unit :=
  try_except
    (ble_config_txpower power ;;
     print (TxPowerSet power))
    Py.is_Exception
    (fun e => print (TxPowerError e)).

(** The body of the loop of [add_service], for one pair of [zip]. *)
Definition assign_handle (pair : ref * Z) : M (machine A) unit :=
  let '(char, handle) := pair in
  modify (with_heap (update char (with_handle (Some handle)))) ;;
  modify (with_self (with_characteristic_handles (fun d => <[handle := char]> d))).

(** [BLEManager.add_service]; [handles[0]] is the tuple of handles of
    the one service registered. *)
Definition add_service (service : BLEService) : M (machine A) unit :=
  char_defs <- gets (fun m =>
    map (fun char => (uuid (heap m char), flags (heap m char)))
        (characteristics service)) ;;
  modify (with_self (with_services (fun l => l ++ [service]))) ;;
  handles <- ble_gatts_register_services (service_uuid service) char_defs ;;
  handles0 <- subscript handles 0 ;;
  for_each (zip (characteristics service) handles0) assign_handle ;;
  print (ServiceAdded (service_uuid service) handles).

(** The body of the innermost loop of [notify], for one connection. *)
Definition notify_connection (char : ref) (v : string) (conn_handle : Z)
    : M (machine A) unit :=
  h <- gets (fun m => handle (heap m char)) ;;
  ble_gatts_notify conn_handle h v.

(** The body of the loop of [notify] over the characteristics of a
    service; [Leave] is its [return]. *)
Definition notify_characteristic (char_uuid : UUID) (v : string) (char : ref)
    : M (machine A) flow :=
  u <- gets (fun m => uuid (heap m char)) ;;
  if decide (u = char_uuid) then
    set_value char v ;;
    conns <- gets (fun m => elements (connections (self m))) ;;
    for_each conns (notify_connection char v) ;;
    print (NotificationSent char_uuid v) ;;
    ret Leave
  else ret Next.

(** [BLEManager.notify(char_uuid, value)], with [char_uuid] as the UUID
    object [ubluetooth.UUID(char_uuid)]. *)
Definition notify (char_uuid : UUID) (v : string) : M (machine A) unit :=
  all_services <- gets (fun m => services (self m)) ;;
  returned <- for_until all_services (fun service =>
    for_until (characteristics service) (notify_characteristic char_uuid v)) ;;
  match returned with
  | Leave => ret tt
  | Next => print (CharacteristicNotFound char_uuid)
  end.


(** The characteristics [notify] walks through, in its order: those of
    every service of [self.services]. *)
Definition listed_characteristics (m : machine A) : list ref :=
  flat_map characteristics (services (self m)).

(** An object slot nothing was stored in. *)
Definition no_characteristic : BLECharacteristic A :=
  {| uuid := []; flags := 0; write_callback := None; handle := None; value := "" |}.

(** [BLEManager.__init__(name, tx_power)], on the radio [r] and with
    the application's world [a]. *)
Definition BLEManager_init (nm : string) (tx : Z) (r : radio) (a : A)
    : res unit * machine A :=
  (ble_active true ;;
   ble_irq ;;
   set_tx_power tx)
    {| self := {| advertising := {| name := nm; service_uuids := [] |};
                  tx_power := tx;
                  services := [];
                  characteristic_handles := ∅;
                  connections := ∅;
                  connect_callback := None;
                  disconnect_callback := None |};
       heap := fun _ => no_characteristic;
       ble := r;
       trace := [];
       env := a |}.

End Methods.

(* ===================================================================== *)
(** * ble_ranger.py                                                       *)
(* ===================================================================== *)

(** [ubluetooth.FLAG_READ], [FLAG_WRITE], [FLAG_NOTIFY] *)
Definition FLAG_READ : Z := 2.
Definition FLAG_WRITE : Z := 8.
Definition FLAG_NOTIFY : Z := 16.

(** [ubluetooth.UUID("0bfc2787-e220-4b0f-ae98-13731add000x")] as bytes
    (the stack keeps them little-endian). *)
Definition ranger_uuid (last : Z) : UUID :=
  [last; 0; 221; 26; 115; 19; 152; 174; 15; 75; 32; 226; 135; 39; 252; 11].

Definition BLE_RANGER_SERVICE_UUID : UUID := ranger_uuid 0.
Definition BLE_RANGER_TX_CHAR_UUID : UUID := ranger_uuid 1.
Definition BLE_RANGER_RX_CHAR_UUID : UUID := ranger_uuid 2.

Section Ranger.

(** The state the channel callbacks of the application act on. *)
Context {U : Type}.

(** [int(...)] of the runtime; [None] stands for [ValueError]. *)
Variable int_of_str : string -> option Z.

(** class BLERanger, without its [ble_manager] (the machine the
    ranger is the world of): the channel registry, what the router
    printed and which channel callbacks it called, and the
    application's state. *)
Record BLERanger : Type := {
  channel_callbacks : gmap Z (Z -> string -> M U unit);
  output : list event;
  user : U
}.

Definition logged (e : event) (r : BLERanger) : BLERanger :=
  {| channel_callbacks := channel_callbacks r;
     output := output r ++ [e];
     user := user r |}.

Definition with_user (u : U) (r : BLERanger) : BLERanger :=
  {| channel_callbacks := channel_callbacks r;
     output := output r;
     user := u |}.

Definition rlog (e : event) : M BLERanger unit := modify (logged e).

(** Run a channel callback on the application's state. *)
Definition ucall {T} (c : M U T) : M BLERanger T :=
  fun r => let (x, u) := c (user r) in (x, with_user u r).

(** [int(s)] *)
Definition int (s : string) : M BLERanger Z :=
  match int_of_str s with
  | Some z => ret z
  | None => raise Py.ValueError
  end.

(** The body of the loop of [write_handler], for one [command]. *)
Definition handle_command (command : string) : M BLERanger flow :=
  if (0 <? String.length command)%nat then
    let rcv := Py.split ":" command in
    parsed <- try_except
      (rcv0 <- subscript rcv 0 ;;
       channel <- int rcv0 ;;
       data <- subscript rcv 1 ;;
       ret (Some (channel, data)))
      (fun _ => true)
      (fun _ => rlog (Print InvalidChannelType) ;; ret None) ;;
    match parsed with
    | None => ret Leave
    | Some (channel, data) =>
        try_except
          (registry <- gets channel_callbacks ;;
           match registry !! channel with
           | Some callback =>
               rlog (Call_channel channel data) ;;
               ucall (callback channel data)
           | None => rlog (Print (UnhandledWrite command))
           end ;;
           ret Next)
          Py.is_Exception
          (fun e => rlog (Print (FailedToHandle e)) ;; ret Leave)
    end
  else ret Next.

(** [BLERanger.write_handler] *)
Definition write_handler (v : string) : M BLERanger unit :=
  let commands := Py.split ";" v in
  for_until commands handle_command ;;
  ret tt.

(** The closure [on_write] of [BLERanger.__init__]. *)
Definition on_write (conn_handle : Z) (char : ref) (v : string) : M BLERanger unit :=
  text <- decode v ;;
  write_handler text.

(** Every registered channel callback raises, if at all, an exception
    derived from [Exception]. *)
Definition tame (r : BLERanger) : Prop :=
  forall channel callback data u e u',
    channel_callbacks r !! channel = Some callback ->
    callback channel data u = (Exc e, u') ->
    Py.is_Exception e = true.

Definition register_disconnect (callback : option (Z -> M BLERanger unit))
    : M (machine BLERanger) unit :=
  register_disconnect_callback callback.

Definition register_connect (callback : option (Z -> M BLERanger unit))
    : M (machine BLERanger) unit :=
  register_connect_callback callback.

Definition register_channel (channel : Z) (callback : Z -> string -> M U unit)
    : M (machine BLERanger) unit :=
  modify (with_env (fun r =>
    {| channel_callbacks := <[channel := callback]> (channel_callbacks r);
       output := output r;
       user := user r |})).

(** [BLERanger.__init__(name)], on the radio [r]: the two
    characteristic objects are stored at references 0 and 1.  (The
    source creates the empty channel registry last; nothing reads it
    before.) *)
Definition BLERanger_init (nm : string) (r : radio) (u : U)
    : res unit * machine BLERanger :=
  let char1 := {| uuid := BLE_RANGER_RX_CHAR_UUID; flags := FLAG_WRITE;
                  write_callback := Some on_write; handle := None; value := "" |} in
  let char2 := {| uuid := BLE_RANGER_TX_CHAR_UUID; flags := FLAG_NOTIFY;
                  write_callback := None; handle := None; value := "" |} in
  let service := {| service_uuid := BLE_RANGER_SERVICE_UUID; characteristics := [] |} in
  let service := add_characteristic service 0%nat in
  let service := add_characteristic service 1%nat in
  match BLEManager_init nm 4 r
          {| channel_callbacks := ∅; output := []; user := u |} with
  | (Ok _, m) =>
      (modify (with_heap (fun h => update 0%nat (fun _ => char1)
                                     (update 1%nat (fun _ => char2) h))) ;;
       add_service service ;;
       set_advertising_service BLE_RANGER_SERVICE_UUID ;;
       start 100) m
  | (Exc e, m) => (Exc e, m)
  end.

End Ranger.

Arguments BLERanger : clear implicits.

(* ===================================================================== *)
(** * ble_ranger.py: the module-level callbacks and [main]                *)
(* ===================================================================== *)

(** The application of ble_ranger.py keeps no state of its own; what
    its channel callback prints is its state here. *)
Definition app : Type := list msg.

Definition on_connect (arg : Z) : M (BLERanger app) unit :=
  rlog (Print Connected).

Definition on_disconnect (arg : Z) : M (BLERanger app) unit :=
  rlog (Print Disconnected).

Definition channel_callback (channel : Z) (data : string) : M app unit :=
  modify (fun printed => printed ++ [DataReceived channel data]).

(** A radio that answers every read with [written], registers services
    with the handles [handles], and accepts the power setting. *)
Definition radio_answering (written : string) (handles : list (list Z)) : radio :=
  {| active := false; advertised := None; calls := [];
     gatts_read := fun _ => written;
     gatts_register_services := fun _ _ => Ok handles;
     config_txpower := fun _ => Ok tt |}.

(** A radio that rejects the registration of services. *)
Definition radio_rejecting (e : Py.exn) : radio :=
  {| active := false; advertised := None; calls := [];
     gatts_read := fun _ => "";
     gatts_register_services := fun _ _ => Exc e;
     config_txpower := fun _ => Ok tt |}.

(** [main()] up to its idle loop, on the radio [r]. *)
Definition main (r : radio) : res unit * machine (BLERanger app) :=
  match BLERanger_init Py.int "draw bot" r [] with
  | (Ok _, m) =>
      (register_connect (Some on_connect) ;;
       register_disconnect (Some on_disconnect) ;;
       register_channel 1 channel_callback) m
  | (Exc e, m) => (Exc e, m)
  end.

(** The machine [main()] leaves when the stack hands out the handles 9
    and 11 and answers reads with [written]. *)
Definition bot (written : string) : machine (BLERanger app) :=
  snd (main (radio_answering written [[9; 11]])).

(** [ubluetooth.UUID("12345678-1234-5678-1234-56789abcdefx")] as bytes. *)
Definition example_uuid (last : Z) : UUID :=
  [last; 222; 188; 154; 120; 86; 52; 18; 120; 86; 52; 18; 120; 86; 52; 18].

(** The device of the example at the end of ble_base.py, reduced to its
    first characteristic: one service whose characteristic (stored at
    reference 0, handle 9) has the write callback [cb]. *)
Definition pico (cb : option (Z -> ref -> string -> M unit unit)) (written : string)
    : machine unit :=
  snd ((modify (with_heap (update 0%nat (fun _ =>
          {| uuid := example_uuid 241; flags := Z.lor FLAG_READ FLAG_WRITE;
             write_callback := cb; handle := None; value := "" |}))) ;;
        add_service {| service_uuid := example_uuid 240; characteristics := [0%nat] |})
         (snd (BLEManager_init "PicoW-BLE" 4 (radio_answering written [[9]]) tt))).

(** A manager whose radio rejects registrations, before any service is
    added. *)
Definition rejected (e : Py.exn) : machine unit :=
  snd (BLEManager_init "PicoW-BLE" 4 (radio_rejecting e) tt).

(** Callbacks that fail. *)
Definition failing_write {S} (e : Py.exn) (conn_handle : Z) (char : ref)
    (value : string) : M S unit := raise e.
Definition failing_callback {S} (e : Py.exn) (arg : Z) : M S unit := raise e.
Definition failing_channel (e : Py.exn) (channel : Z) (data : string) : M app unit :=
  raise e.

(** The byte 0xFF, which is not UTF-8. *)
Definition not_utf8 : string := String (ascii_of_nat 255) EmptyString.

(** A name of 255 bytes. *)
Definition long_name : string :=
  Eval cbv in fold_right (fun _ s => String "a" s) EmptyString (seq 0 255).

(* ===================================================================== *)
(** * Notions used to state the properties                                *)
(* ===================================================================== *)

(** One AD structure: the length octet counts the type and the value. *)
Definition ad_structure (ty : Z) (value : list Z) : list Z :=
  (Z.of_nat (length value) + 1) :: ty :: value.

(** [sep.join(fields)] *)
Fixpoint join (sep : ascii) (fields : list string) : string :=
  match fields with
  | [] => EmptyString
  | [f] => f
  | f :: fs => f +:+ String sep (join sep fs)
  end.

(** The text of a command for the router: [tok:data]. *)
Definition command_text (tok data : string) : string := tok +:+ ":" +:+ data.

(** A command in the form the router expects: a token without
    separators that [int] reads as [channel], and data without
    separators. *)
Definition well_formed (int_of_str : string -> option Z) (c : string * Z * string) : Prop :=
  Py.contains ":" c.1.1 = false /\ Py.contains ";" c.1.1 = false
  /\ Py.contains ":" c.2 = false /\ Py.contains ";" c.2 = false
  /\ int_of_str c.1.1 = Some c.1.2.

(** The channel of the command has a callback, and it returns. *)
Definition served {U : Type} (r : BLERanger U) (c : string * Z * string) : Prop :=
  exists callback,
    channel_callbacks r !! c.1.2 = Some callback
    /\ forall data u, exists u', callback c.1.2 data u = (Ok tt, u').

(** The events the stack delivers, one call of the handler for each;
    what a call raises is lost in the stack and the next event is
    delivered all the same. *)
Fixpoint deliver {A : Type} (events : list (Z * list Z)) (m : machine A) : machine A :=
  match events with
  | [] => m
  | (event, data) :: rest => deliver rest (snd (_irq_handler event data m))
  end.

(** The connection set a list of events leads to: a connect event (1)
    adds the id it carries first, a disconnect event (2) removes it,
    nothing else counts. *)
Definition connection_step (conns : gset Z) (ev : Z * list Z) : gset Z :=
  match snd ev with
  | conn :: _ =>
      if fst ev =? 1 then conns ∪ {[conn]}
      else if fst ev =? 2 then conns ∖ {[conn]}
      else conns
  | [] => conns
  end.

Definition connected_after (events : list (Z * list Z)) (conns : gset Z) : gset Z :=
  fold_left connection_step events conns.

(** A device whose radio rejected the registration of its service: the
    program caught the exception of [add_service] and went on, and a
    central connected (id 64).  The characteristic (reference 0) is
    listed but has no handle. *)
Definition orphaned (e : Py.exn) : machine unit :=
  snd ((modify (with_heap (update 0%nat (fun _ =>
          {| uuid := example_uuid 241; flags := Z.lor FLAG_READ FLAG_NOTIFY;
             write_callback := None; handle := None; value := "" |}))) ;;
        try_except
          (add_service {| service_uuid := example_uuid 240; characteristics := [0%nat] |})
          Py.is_Exception
          (fun _ => ret tt) ;;
        _irq_handler 1 [64])
         (rejected e)).

(** The router of [main()] with the channels 2 and 3 registered as
    well. *)
Definition three_channels : BLERanger app :=
  env (snd ((register_channel 2 channel_callback ;;
             register_channel 3 channel_callback) (bot ""))).

(* ===================================================================== *)
(** * Proof steps                                                         *)
(* ===================================================================== *)

(** Unfolding the monad and the stack calls. *)
Ltac run :=
  unfold bind, ret, raise, gets, modify, try_except, print, emit, call,
    ble_active, ble_irq, ble_gap_advertise, ble_gap_advertise_None,
    ble_gatts_read, decode, returns in *;
  simpl in *.

(* ===================================================================== *)
(** * Advertising payloads                                                *)
(* ===================================================================== *)

Lemma length_octets (s : string) : length (Py.octets s) = String.length s.
Proof. induction s as [|c s IH]; simpl; congruence. Qed.

(** The loop of [_build_adv_payload] appends the encoded UUIDs to what
    it starts from. *)
Lemma build_adv_loop (service_uuids : list UUID) (start : list Z) :
  Forall (fun u => length u = 16%nat) service_uuids ->
  fold_left
    (fun payload uuid_bytes =>
       payload ++ Py.bytearray [Z.of_nat (length uuid_bytes) + 1; 7] ++ uuid_bytes)
    service_uuids start
  = start ++ uuid_section service_uuids.
Proof.
  intros Hlen. revert start.
  induction Hlen as [|u us Hu _ IH]; intros start; simpl.
  - by rewrite app_nil_r.
  - rewrite IH, Hu. unfold uuid_section. simpl.
    by rewrite <- app_assoc.
Qed.

Lemma length_uuid_section (service_uuids : list UUID) :
  Forall (fun u => length u = 16%nat) service_uuids ->
  length (uuid_section service_uuids) = (length service_uuids * 18)%nat.
Proof.
  induction 1 as [|u us Hu _ IH]; [done|].
  unfold uuid_section in *. simpl. rewrite length_app, IH, Hu. lia.
Qed.

Lemma parse_ad_fuel_step (fuel : nat) (len ty : Z) (body : list Z) :
  parse_ad_fuel (S fuel) (len :: ty :: body)
  = let n := Z.to_nat (len - 1) in
    if (len <=? 0) || (length body <? n)%nat then None
    else option_map (cons (ty, firstn n body)) (parse_ad_fuel fuel (skipn n body)).
Proof. reflexivity. Qed.

(** Reading the UUID section back yields the UUIDs in order. *)
Lemma parse_uuid_section (service_uuids : list UUID) :
  Forall (fun u => length u = 16%nat) service_uuids ->
  forall fuel, (length service_uuids <= fuel)%nat ->
  parse_ad_fuel fuel (uuid_section service_uuids)
  = Some (map (fun u => (7, u)) service_uuids).
Proof.
  induction 1 as [|u us Hu _ IH]; intros fuel Hfuel.
  - by destruct fuel.
  - destruct fuel as [|fuel]; [simpl in Hfuel; lia|].
    do 17 (destruct u as [|? u]; try discriminate Hu).
    change (uuid_section (?x :: us)) with ((17 :: 7 :: x) ++ uuid_section us).
    specialize (IH fuel ltac:(simpl in Hfuel; lia)).
    cbn -[uuid_section parse_ad_fuel].
    rewrite parse_ad_fuel_step.
    change (Z.to_nat (17 - 1)) with 16%nat.
    cbn -[uuid_section parse_ad_fuel].
    rewrite take_0, drop_0, IH. reflexivity.
Qed.

(** C5 fails as stated: with a name of 255 bytes the length octet of
    the scan response cannot hold 256; the runtime keeps the low eight
    bits, so the octet is 0. *)
Lemma C5_long_name_counterexample :
  _build_scan_response long_name
  <> (Z.of_nat (String.length long_name) + 1) :: 9 :: Py.octets long_name.
Proof.
  intros H. apply (f_equal (hd 0)) in H. vm_compute in H. discriminate H.
Qed.

(** C5 (amended): for a device name of at most 254 UTF-8 bytes and any
    sequence of N 128-bit service UUIDs, the advertising payload is the
    flags structure 02 01 06 followed by a UUID section of N x 18 bytes
    (17, 07 and the 16 UUID bytes for each UUID), the scan response is
    len(name)+1, 09 and the name bytes (len(name)+2 bytes), and reading
    the advertising payload as AD structures yields the flags value
    0x06 and every UUID in order. *)
Theorem C5_advertisement_encoding (name : string) (service_uuids : list UUID) :
  Forall (fun u => length u = 16%nat) service_uuids ->
  (String.length name <= 254)%nat ->
  _build_adv_payload service_uuids = [2; 1; 6] ++ uuid_section service_uuids
  /\ length (uuid_section service_uuids) = (length service_uuids * 18)%nat
  /\ _build_scan_response name
     = (Z.of_nat (String.length name) + 1) :: 9 :: Py.octets name
  /\ length (_build_scan_response name) = (String.length name + 2)%nat
  /\ parse_ad (_build_adv_payload service_uuids)
     = Some ((1, [6]) :: map (fun u => (7, u)) service_uuids).
Proof.
  intros Hlen Hname.
  assert (Hadv : _build_adv_payload service_uuids
                 = [2; 1; 6] ++ uuid_section service_uuids).
  { unfold _build_adv_payload. by rewrite build_adv_loop. }
  assert (Hscan : _build_scan_response name
                  = (Z.of_nat (String.length name) + 1) :: 9 :: Py.octets name).
  { unfold _build_scan_response, Py.bytearray. simpl.
    rewrite length_octets. f_equal. apply Z.mod_small. lia. }
  repeat split; try assumption.
  - by apply length_uuid_section.
  - rewrite Hscan. simpl. rewrite length_octets. lia.
  - rewrite Hadv. unfold parse_ad.
    change (length ([2; 1; 6] ++ uuid_section service_uuids))
      with (S (S (S (length (uuid_section service_uuids))))).
    change ([2; 1; 6] ++ uuid_section service_uuids)
      with (2 :: 1 :: 6 :: uuid_section service_uuids).
    rewrite parse_ad_fuel_step.
    change (Z.to_nat (2 - 1)) with 1%nat.
    cbn -[uuid_section parse_ad_fuel].
    rewrite drop_0, parse_uuid_section; [done|done|].
    rewrite length_uuid_section by done. lia.
Qed.

Lemma C5_advertisement_encoding_witness :
  _build_adv_payload [BLE_RANGER_SERVICE_UUID]
  = [2; 1; 6] ++ uuid_section [BLE_RANGER_SERVICE_UUID]
  /\ length (uuid_section [BLE_RANGER_SERVICE_UUID]) = (1 * 18)%nat
  /\ _build_scan_response "draw bot"
     = (Z.of_nat (String.length "draw bot") + 1) :: 9 :: Py.octets "draw bot"
  /\ length (_build_scan_response "draw bot") = (String.length "draw bot" + 2)%nat
  /\ parse_ad (_build_adv_payload [BLE_RANGER_SERVICE_UUID])
     = Some ((1, [6]) :: map (fun u => (7, u)) [BLE_RANGER_SERVICE_UUID]).
Proof.
  apply (C5_advertisement_encoding "draw bot" [BLE_RANGER_SERVICE_UUID]).
  - repeat constructor.
  - simpl. lia.
Defined.

(* ===================================================================== *)
(** * Strings and loops                                                   *)
(* ===================================================================== *)

Lemma split_upto (sep : ascii) (s : string) :
  exists fields, Py.split sep s = Py.upto sep s :: fields.
Proof.
  induction s as [|c s [fields IH]]; simpl.
  - by exists [].
  - destruct (Ascii.eqb c sep); [by eexists|].
    rewrite IH. by eexists.
Qed.

Lemma split_no_sep (sep : ascii) (s : string) :
  Py.contains sep s = false -> Py.split sep s = [s].
Proof.
  induction s as [|c s IH]; simpl; [done|].
  destruct (Ascii.eqb c sep); simpl; [done|].
  intros H. by rewrite IH.
Qed.

Lemma split_app (sep : ascii) (tok rest : string) :
  Py.contains sep tok = false ->
  Py.split sep (tok +:+ String sep rest) = tok :: Py.split sep rest.
Proof.
  induction tok as [|c tok IH]; simpl.
  - intros _. by rewrite Ascii.eqb_refl.
  - destruct (Ascii.eqb c sep); simpl; [done|].
    intros H. by rewrite IH.
Qed.

Lemma upto_no_sep (sep : ascii) (s : string) :
  Py.contains sep s = false -> Py.upto sep s = s.
Proof.
  induction s as [|c s IH]; simpl; [done|].
  destruct (Ascii.eqb c sep); simpl; [done|].
  intros H. by rewrite IH.
Qed.

Lemma upto_app (sep : ascii) (tok rest : string) :
  Py.contains sep tok = false ->
  Py.upto sep (tok +:+ String sep rest) = tok.
Proof.
  induction tok as [|c tok IH]; simpl.
  - intros _. by rewrite Ascii.eqb_refl.
  - destruct (Ascii.eqb c sep); simpl; [done|].
    intros H. by rewrite IH.
Qed.

(** A loop over [l1 ++ l2] runs the loop over [l1] and, unless that one
    was left or raised, the loop over [l2]. *)
Lemma for_until_app {S T} (l1 l2 : list T) (body : T -> M S flow) (s : S) :
  for_until (l1 ++ l2) body s
  = match for_until l1 body s with
    | (Ok Next, s') => for_until l2 body s'
    | r => r
    end.
Proof.
  revert s. induction l1 as [|x l1 IH]; intros s; simpl; [done|].
  unfold bind. destruct (body x s) as [[[]|e] s']; simpl; auto.
Qed.

(* ===================================================================== *)
(** * The channel router                                                  *)
(* ===================================================================== *)

Section RouterFacts.

Context {U : Type}.
Variable int_of_str : string -> option Z.


(** Where a batch stands when its loop reaches [command]. *)
Lemma write_handler_at (v : string) (pre : list string) (command : string)
    (post : list string) (r0 r : BLERanger U) :
  Py.split ";" v = pre ++ command :: post ->
  for_until pre (handle_command int_of_str) r0 = (Ok Next, r) ->
  write_handler int_of_str v r0
  = match handle_command int_of_str command r with
    | (Ok Next, r') => (for_until post (handle_command int_of_str) ;; ret tt) r'
    | (Ok Leave, r') => (Ok tt, r')
    | (Exc e, r') => (Exc e, r')
    end.
Proof.
  intros Hsplit Hpre. unfold write_handler, bind.
  rewrite Hsplit, for_until_app, Hpre. simpl. unfold bind.
  destruct (handle_command int_of_str command r) as [[[]|e] r']; reflexivity.
Qed.

Lemma nonempty_length (command : string) :
  command <> "" -> (0 <? String.length command)%nat = true.
Proof. destruct command; [done|reflexivity]. Qed.

(** A command whose channel token is not an integer. *)
Lemma handle_command_bad_channel (command : string) (r : BLERanger U) :
  command <> "" ->
  int_of_str (Py.upto ":" command) = None ->
  handle_command int_of_str command r = (Ok Leave, logged (Print InvalidChannelType) r).
Proof.
  intros Hne Hint. unfold handle_command.
  rewrite nonempty_length by done.
  destruct (split_upto ":" command) as [fields ->].
  unfold bind, try_except, subscript, int. simpl. by rewrite Hint.
Qed.

(** A command without any colon. *)
Lemma handle_command_no_colon (command : string) (r : BLERanger U) :
  command <> "" ->
  Py.contains ":" command = false ->
  handle_command int_of_str command r = (Ok Leave, logged (Print InvalidChannelType) r).
Proof.
  intros Hne Hcolon. unfold handle_command.
  rewrite nonempty_length, split_no_sep by done.
  unfold bind, try_except, subscript, int. simpl.
  by destruct (int_of_str command).
Qed.

(** A command that parses to [(channel, data)], with a callback
    registered for [channel]. *)
Lemma handle_command_registered (command tok data : string) (more : list string)
    (channel : Z) (callback : Z -> string -> M U unit) (r : BLERanger U) :
  command <> "" ->
  Py.split ":" command = tok :: data :: more ->
  int_of_str tok = Some channel ->
  channel_callbacks r !! channel = Some callback ->
  handle_command int_of_str command r
  = let r1 := logged (Call_channel channel data) r in
    match callback channel data (user r) with
    | (Ok _, u) => (Ok Next, with_user u r1)
    | (Exc e, u) =>
        if Py.is_Exception e
        then (Ok Leave, logged (Print (FailedToHandle e)) (with_user u r1))
        else (Exc e, with_user u r1)
    end.
Proof.
  intros Hne Hsplit Hint Hcb. unfold handle_command.
  rewrite nonempty_length, Hsplit by done.
  unfold bind, try_except, subscript, int, gets, rlog, modify, ucall. simpl.
  rewrite Hint. simpl. rewrite Hcb. simpl.
  destruct (callback channel data (user r)) as [[[]|e] u]; simpl; [done|].
  by destruct (Py.is_Exception e).
Qed.

(** A command that parses to [(channel, data)], without a callback for
    [channel]. *)
Lemma handle_command_unhandled (command tok data : string) (more : list string)
    (channel : Z) (r : BLERanger U) :
  command <> "" ->
  Py.split ":" command = tok :: data :: more ->
  int_of_str tok = Some channel ->
  channel_callbacks r !! channel = None ->
  handle_command int_of_str command r = (Ok Next, logged (Print (UnhandledWrite command)) r).
Proof.
  intros Hne Hsplit Hint Hcb. unfold handle_command.
  rewrite nonempty_length, Hsplit by done.
  unfold bind, try_except, subscript, int, gets, rlog, modify, ucall. simpl.
  rewrite Hint. simpl. by rewrite Hcb.
Qed.

Lemma append_colon_nonempty (tok rest : string) : tok +:+ ":" +:+ rest <> "".
Proof. by destruct tok. Qed.

End RouterFacts.

(** C2 fails as stated: for the segment "1:a:b" the callback of
    channel 1 is called once, with the data "a" ([rcv[1]] of
    [command.split(":")]), and never with "a:b". *)
Lemma C2_counterexample :
  output (snd (write_handler Py.int "1:a:b" (env (bot ""))))
  = [Call_channel 1 "a"]
  /\ user (snd (write_handler Py.int "1:a:b" (env (bot ""))))
     = [DataReceived 1 "a"]
  /\ ~ In (Call_channel 1 "a:b")
          (output (snd (write_handler Py.int "1:a:b" (env (bot ""))))).
Proof.
  vm_compute. repeat split; intros [H|[]]; discriminate H.
Qed.

(** C2 (amended): when the loop of a write batch reaches a segment
    [tok:rest] whose token [tok] (the text before the first colon) is
    the integer [channel] and a callback is registered for [channel],
    the callback is called exactly once, with [channel] and the text of
    [rest] up to its first colon (all of [rest] when it has none); the
    batch then goes on with the following segments if the callback
    returns, and stops if it raises. *)
Theorem C2_callback_data {U : Type} (int_of_str : string -> option Z)
    (v : string) (pre : list string) (tok rest : string) (post : list string)
    (r0 r : BLERanger U) (channel : Z) (callback : Z -> string -> M U unit) :
  Py.split ";" v = pre ++ (tok +:+ ":" +:+ rest) :: post ->
  for_until pre (handle_command int_of_str) r0 = (Ok Next, r) ->
  Py.contains ":" tok = false ->
  int_of_str tok = Some channel ->
  channel_callbacks r !! channel = Some callback ->
  let data := Py.upto ":" rest in
  let r1 := logged (Call_channel channel data) r in
  (Py.contains ":" rest = false -> data = rest)
  /\ write_handler int_of_str v r0
     = match callback channel data (user r) with
       | (Ok _, u) =>
           (for_until post (handle_command int_of_str) ;; ret tt) (with_user u r1)
       | (Exc e, u) =>
           if Py.is_Exception e
           then (Ok tt, logged (Print (FailedToHandle e)) (with_user u r1))
           else (Exc e, with_user u r1)
       end.
Proof.
  intros Hsplit Hpre Htok Hint Hcb data r1. split.
  - apply upto_no_sep.
  - rewrite (write_handler_at int_of_str v pre _ post r0 r Hsplit Hpre).
    destruct (split_upto ":" rest) as [more Hrest].
    rewrite (handle_command_registered int_of_str _ tok data more channel callback r).
    + simpl. fold data. fold r1.
      destruct (callback channel data (user r)) as [[[]|e] u]; [done|].
      by destruct (Py.is_Exception e).
    + apply append_colon_nonempty.
    + change (tok +:+ ":" +:+ rest) with (tok +:+ String ":" rest).
      by rewrite split_app, Hrest.
    + done.
    + done.
Qed.

Lemma C2_callback_data_witness :
  let r := snd (for_until ["1:up"] (handle_command Py.int) (env (bot ""))) in
  let r1 := logged (Call_channel 1 "a") r in
  (Py.contains ":" "a:b" = false -> "a" = "a:b")
  /\ write_handler Py.int "1:up;1:a:b;1:go" (env (bot ""))
     = match channel_callback 1 "a" (user r) with
       | (Ok _, u) =>
           (for_until ["1:go"] (handle_command Py.int) ;; ret tt) (with_user u r1)
       | (Exc e, u) =>
           if Py.is_Exception e
           then (Ok tt, logged (Print (FailedToHandle e)) (with_user u r1))
           else (Exc e, with_user u r1)
       end.
Proof.
  intros r r1.
  apply (C2_callback_data Py.int "1:up;1:a:b;1:go" ["1:up"] "1" "a:b" ["1:go"]
           (env (bot "")) r 1 channel_callback); reflexivity.
Defined.

(** C3: in a write batch, the first segment whose channel token is not
    an integer ends the batch (nothing after it is processed and no
    callback is called for it); so does the first parsed segment whose
    registered callback raises; a parsed segment whose channel has no
    callback is reported and the batch goes on with the next segment. *)
Theorem C3_fail_fast {U : Type} (int_of_str : string -> option Z)
    (v : string) (pre : list string) (command : string) (post : list string)
    (r0 r : BLERanger U) :
  Py.split ";" v = pre ++ command :: post ->
  for_until pre (handle_command int_of_str) r0 = (Ok Next, r) ->
  command <> "" ->
  (int_of_str (Py.upto ":" command) = None ->
   write_handler int_of_str v r0 = (Ok tt, logged (Print InvalidChannelType) r))
  /\ (forall tok data more channel callback e u,
        Py.split ":" command = tok :: data :: more ->
        int_of_str tok = Some channel ->
        channel_callbacks r !! channel = Some callback ->
        callback channel data (user r) = (Exc e, u) ->
        write_handler int_of_str v r0
        = let r1 := with_user u (logged (Call_channel channel data) r) in
          if Py.is_Exception e
          then (Ok tt, logged (Print (FailedToHandle e)) r1)
          else (Exc e, r1))
  /\ (forall tok data more channel,
        Py.split ":" command = tok :: data :: more ->
        int_of_str tok = Some channel ->
        channel_callbacks r !! channel = None ->
        write_handler int_of_str v r0
        = (for_until post (handle_command int_of_str) ;; ret tt)
            (logged (Print (UnhandledWrite command)) r)).
Proof.
  intros Hsplit Hpre Hne.
  pose proof (write_handler_at int_of_str v pre command post r0 r Hsplit Hpre) as Hat.
  repeat split.
  - intros Hint. rewrite Hat.
    by rewrite handle_command_bad_channel.
  - intros tok data more channel callback e u Hrcv Hint Hcb Hraise.
    rewrite Hat,
      (handle_command_registered int_of_str command tok data more channel callback r)
      by done.
    simpl. rewrite Hraise.
    by destruct (Py.is_Exception e).
  - intros tok data more channel Hrcv Hint Hcb.
    by rewrite Hat,
      (handle_command_unhandled int_of_str command tok data more channel r).
Qed.

(** The batch "x:bad;1:up" calls no callback although channel 1 is
    registered; with a failing callback for channel 1 the batch
    "1:up;1:go" stops after the first call; the batch "7:q;1:up" reports
    "7:q" and goes on. *)
Lemma C3_fail_fast_witness :
  write_handler Py.int "x:bad;1:up" (env (bot ""))
  = (Ok tt, logged (Print InvalidChannelType) (env (bot "")))
  /\ (let r := snd (register_channel 1 (failing_channel (Py.UserError "stuck")) (bot "")) in
      write_handler Py.int "1:up;1:go" (env r)
      = (Ok tt, logged (Print (FailedToHandle (Py.UserError "stuck")))
                  (with_user [] (logged (Call_channel 1 "up") (env r)))))
  /\ write_handler Py.int "7:q;1:up" (env (bot ""))
     = (for_until ["1:up"] (handle_command Py.int) ;; ret tt)
         (logged (Print (UnhandledWrite "7:q")) (env (bot ""))).
Proof.
  split; [|split].
  - apply (C3_fail_fast Py.int "x:bad;1:up" [] "x:bad" ["1:up"]
             (env (bot "")) (env (bot ""))); [reflexivity|reflexivity|discriminate|].
    reflexivity.
  - intros r.
    refine (proj1 (proj2 (C3_fail_fast Py.int "1:up;1:go" [] "1:up" ["1:go"]
                            (env r) (env r) _ _ _))
              "1" "up" [] 1 (failing_channel (Py.UserError "stuck"))
              (Py.UserError "stuck") [] _ _ _ _);
      solve [reflexivity | discriminate].
  - refine (proj2 (proj2 (C3_fail_fast Py.int "7:q;1:up" [] "7:q" ["1:up"]
                            (env (bot "")) (env (bot "")) _ _ _))
              "7" "q" [] 7 _ _ _);
      solve [reflexivity | discriminate].
Defined.

(** C10: in a write batch, a non-empty segment without any colon ends
    the batch exactly as a non-integer channel token does (the bare
    [except] takes the [IndexError] of [rcv[1]], prints "invalid channel
    type" and breaks), whether or not its text is an integer. *)
Theorem C10_missing_colon {U : Type} (int_of_str : string -> option Z)
    (v : string) (pre : list string) (command : string) (post : list string)
    (r0 r : BLERanger U) :
  Py.split ";" v = pre ++ command :: post ->
  for_until pre (handle_command int_of_str) r0 = (Ok Next, r) ->
  command <> "" ->
  Py.contains ":" command = false ->
  write_handler int_of_str v r0 = (Ok tt, logged (Print InvalidChannelType) r).
Proof.
  intros Hsplit Hpre Hne Hcolon.
  rewrite (write_handler_at int_of_str v pre command post r0 r Hsplit Hpre).
  by rewrite handle_command_no_colon.
Qed.

Lemma C10_missing_colon_witness :
  Py.int "5" = Some 5
  /\ write_handler Py.int "5;1:up" (env (bot ""))
     = (Ok tt, logged (Print InvalidChannelType) (env (bot ""))).
Proof.
  split; [reflexivity|].
  apply (C10_missing_colon Py.int "5;1:up" [] "5" ["1:up"]
           (env (bot "")) (env (bot ""))); solve [reflexivity | discriminate].
Defined.

(* ===================================================================== *)
(** * The peripheral manager                                              *)
(* ===================================================================== *)

(** C9: [add_service] appends the service to [self.services] before it
    asks the stack; when the stack rejects the registration the
    exception propagates, the service stays listed, no characteristic
    object is touched (so a characteristic without a handle stays
    without one) and the handle registry is unchanged. *)
Theorem C9_add_service_not_atomic {A : Type} (m : machine A)
    (service : BLEService) (e : Py.exn) :
  gatts_register_services (ble m) (service_uuid service)
    (map (fun char => (uuid (heap m char), flags (heap m char)))
         (characteristics service)) = Exc e ->
  let r := add_service service m in
  fst r = Exc e
  /\ services (self (snd r)) = services (self m) ++ [service]
  /\ heap (snd r) = heap m
  /\ characteristic_handles (self (snd r)) = characteristic_handles (self m)
  /\ calls (ble (snd r))
     = calls (ble m)
       ++ [Gatts_register_services (service_uuid service)
             (map (fun char => (uuid (heap m char), flags (heap m char)))
                  (characteristics service))].
Proof.
  intros Hreject. unfold add_service, ble_gatts_register_services. run.
  rewrite Hreject. simpl. done.
Qed.

Lemma C9_add_service_not_atomic_witness :
  let service := {| service_uuid := example_uuid 240; characteristics := [0%nat; 1%nat] |} in
  let m := rejected (Py.OSError 12) in
  let r := add_service service m in
  fst r = Exc (Py.OSError 12)
  /\ services (self (snd r)) = services (self m) ++ [service]
  /\ heap (snd r) = heap m
  /\ characteristic_handles (self (snd r)) = characteristic_handles (self m)
  /\ calls (ble (snd r))
     = calls (ble m)
       ++ [Gatts_register_services (service_uuid service)
             (map (fun char => (uuid (heap m char), flags (heap m char)))
                  (characteristics service))].
Proof.
  intros service m.
  apply (C9_add_service_not_atomic m service (Py.OSError 12)).
  reflexivity.
Defined.



(** C6 fails as stated: with a disconnect callback that raises, the
    dispatcher leaves at the callback, before [self.advertising.start()];
    the disconnect event then starts no advertising at all. *)
Lemma C6_counterexample :
  let m := snd (register_disconnect (Some (failing_callback (Py.UserError "busy")))
                  (bot "")) in
  let m1 := snd (_irq_handler 1 [64] m) in
  let r2 := _irq_handler 2 [64] m1 in
  fst r2 = Exc (Py.UserError "busy")
  /\ calls (ble (snd r2)) = calls (ble m1).
Proof. vm_compute. done. Qed.

(** C6 (amended): after a connect event for X followed by a disconnect
    event for X the connection set does not contain X; and when the
    disconnect callback, if one is registered, returns normally, the
    disconnect event returns and starts advertising exactly once (one
    [gap_advertise] call with interval 100 and the two payloads),
    whether or not a callback is registered. *)
Theorem C6_disconnect_restarts_advertising {A : Type} (m : machine A)
    (X : Z) (rest1 rest2 : list Z) :
  let m1 := snd (_irq_handler 1 (X :: rest1) m) in
  let r2 := _irq_handler 2 (X :: rest2) m1 in
(X ∉ connections (self (snd r2)))
  /\ ((forall cb, disconnect_callback (self m1) = Some cb -> returns (cb X (env m1))) ->
      returns r2
      /\ calls (ble (snd r2))
         = calls (ble m1)
           ++ [Gap_advertise 100
                 (_build_adv_payload (service_uuids (advertising (self m1))))
                 (_build_scan_response (name (advertising (self m1))))]).
Proof.
  intros m1 r2. subst r2. generalize m1. clear m1 m rest1. intros m.
  assert (Hgone : forall c : gset Z, X ∉ c ∖ {[X]}).
  { intros c [_ Hx]%elem_of_difference. apply Hx. by apply elem_of_singleton. }
  unfold _irq_handler, start. run.
  destruct (disconnect_callback (self m)) as [cb|] eqn:Hcb; run.
  - destruct (cb X (env m)) as [[[]|e] a] eqn:Hrun; run.
    + split; [apply Hgone|]. done.
    + split; [apply Hgone|]. intros H. specialize (H cb eq_refl).
      rewrite Hrun in H. done.
  - split; [apply Hgone|]. done.
Qed.

Lemma C6_disconnect_restarts_advertising_witness :
  let m1 := snd (_irq_handler 1 [64; 0] (bot "")) in
  let r2 := _irq_handler 2 [64; 0] m1 in
(64 ∉ connections (self (snd r2)))
  /\ returns r2
  /\ calls (ble (snd r2))
     = calls (ble m1)
       ++ [Gap_advertise 100
             (_build_adv_payload (service_uuids (advertising (self m1))))
             (_build_scan_response (name (advertising (self m1))))].
Proof.
  intros m1 r2.
  destruct (C6_disconnect_restarts_advertising (bot "") 64 [0] [0]) as [Hgone Hadv].
  split; [exact Hgone|].
  apply Hadv. intros cb Hcb. vm_compute in Hcb.
  injection Hcb as <-. vm_compute. exact I.
Defined.

(** C1 fails as stated: a write event whose value is not UTF-8 raises
    [UnicodeError] out of the dispatcher (at [print(value.decode())]),
    and so does the exception of a write callback or of a connect
    callback. *)
Lemma C1_counterexample :
  fst (_irq_handler 3 [64; 9] (bot not_utf8)) = Exc Py.UnicodeError
  /\ fst (_irq_handler 3 [64; 9]
            (pico (Some (failing_write (Py.UserError "full"))) "on"))
     = Exc (Py.UserError "full")
  /\ fst (_irq_handler 1 [64]
            (snd (register_connect (Some (failing_callback Py.ValueError)) (bot ""))))
     = Exc Py.ValueError.
Proof. vm_compute. done. Qed.

(** C1 (amended): the dispatcher returns normally for every event
    whenever the callback it calls for that event, if any, returns
    normally and, for a write event, the written value is valid UTF-8
    (connect and disconnect events carry the connection id first, a
    write event carries the connection id and the handle; events of any
    other kind are ignored). *)
Theorem C1_dispatcher_returns {A : Type} (m : machine A) (event : Z) (data : list Z) :
  (event = 1 ->
   exists conn rest, data = conn :: rest
     /\ forall cb, connect_callback (self m) = Some cb -> returns (cb conn (env m))) ->
  (event = 2 ->
   exists conn rest, data = conn :: rest
     /\ forall cb, disconnect_callback (self m) = Some cb -> returns (cb conn (env m))) ->
  (event = 3 ->
   exists conn attr, data = [conn; attr]
     /\ Py.utf8_check (gatts_read (ble m) attr) = true
     /\ forall char cb,
          characteristic_handles (self m) !! attr = Some char ->
          write_callback (heap m char) = Some cb ->
          returns (cb conn char (gatts_read (ble m) attr) (env m))) ->
  returns (_irq_handler event data m).
Proof.
  intros Hconnect Hdisconnect Hwrite. unfold _irq_handler.
  destruct (Z.eqb_spec event 1) as [->|_].
  { destruct Hconnect as (conn & rest & -> & Hcb); [done|]. run.
    destruct (connect_callback (self m)) as [cb|]; run; [|done].
    specialize (Hcb cb eq_refl).
    by destruct (cb conn (env m)) as [[[]|e] a]. }
  destruct (Z.eqb_spec event 2) as [->|_].
  { destruct Hdisconnect as (conn & rest & -> & Hcb); [done|]. unfold start. run.
    destruct (disconnect_callback (self m)) as [cb|]; run; [|done].
    specialize (Hcb cb eq_refl).
    by destruct (cb conn (env m)) as [[[]|e] a]. }
  destruct (Z.eqb_spec event 3) as [->|_]; [|done].
  destruct Hwrite as (conn & attr & -> & Hutf & Hcb); [done|]. run.
  unfold Py.decode. rewrite Hutf. run.
  destruct (characteristic_handles (self m) !! attr) as [char|] eqn:Hchar; run; [|done].
  destruct (write_callback (heap m char)) as [cb|] eqn:Hw; run; [|done].
  specialize (Hcb char cb eq_refl Hw).
  by destruct (cb conn char (gatts_read (ble m) attr) (env m)) as [[[]|e] a].
Qed.

Lemma C1_dispatcher_returns_witness :
  returns (_irq_handler 3 [64; 9] (bot "1:up;2:left;3:")).
Proof.
  apply C1_dispatcher_returns; intros H; try discriminate H.
  exists 64, 9. split; [reflexivity|]. split; [reflexivity|].
  intros char cb Hchar Hcb.
  assert (Hzero : char = 0%nat) by (vm_compute in Hchar; congruence).
  subst char.
  assert (Hwrite : write_callback (heap (bot "1:up;2:left;3:") 0%nat)
                   = Some (on_write (U:=app) Py.int)) by reflexivity.
  rewrite Hwrite in Hcb. injection Hcb as <-.
  vm_compute. exact I.
Defined.

(** ** Registration of a service *)

(** The loop of [add_service] over the pairs of [zip]. *)
Lemma assign_handles_loop {A : Type} (pairs : list (ref * Z)) :
  NoDup pairs.*1 -> NoDup pairs.*2 ->
  forall m : machine A,
  exists m',
    for_each pairs assign_handle m = (Ok tt, m')
    /\ (forall char h, (char, h) ∈ pairs ->
          handle (heap m' char) = Some h
          /\ characteristic_handles (self m') !! h = Some char)
    /\ (forall char, char ∉ pairs.*1 -> heap m' char = heap m char)
    /\ (forall h, h ∉ pairs.*2 ->
          characteristic_handles (self m') !! h = characteristic_handles (self m) !! h)
    /\ trace m' = trace m /\ ble m' = ble m.
Proof.
  induction pairs as [|[c0 h0] pairs IH]; intros Hchars Hhandles m.
  - exists m. split; [done|]. split; [|done].
    intros char h Hin. by apply elem_of_nil in Hin.
  - simpl in Hchars, Hhandles.
    apply NoDup_cons in Hchars as [Hc0 Hchars].
    apply NoDup_cons in Hhandles as [Hh0 Hhandles].
    set (m1 := with_self (with_characteristic_handles (fun d => <[h0 := c0]> d))
                 (with_heap (update c0 (with_handle (Some h0))) m)).
    destruct (IH Hchars Hhandles m1) as (m' & Hrun & Hin & Hheap & Hreg & Htrace & Hble).
    exists m'. split; [|split; [|split; [|split]]].
    + simpl. unfold bind, assign_handle, modify. simpl. exact Hrun.
    + intros char h [Heq|Hrest]%elem_of_cons.
      * injection Heq as -> ->. split.
        -- rewrite (Hheap c0 Hc0). subst m1. simpl. unfold update.
           by rewrite Nat.eqb_refl.
        -- rewrite (Hreg h0 Hh0). subst m1. simpl. apply lookup_insert_eq.
      * by apply Hin.
    + intros char Hout. simpl in Hout.
      apply not_elem_of_cons in Hout as [Hne Hout].
      rewrite (Hheap char Hout). subst m1. simpl. unfold update.
      destruct (Nat.eqb_spec char c0); [done|reflexivity].
    + intros h Hout. simpl in Hout.
      apply not_elem_of_cons in Hout as [Hne Hout].
      rewrite (Hreg h Hout). subst m1. simpl. by apply lookup_insert_ne.
    + by rewrite Htrace, Hble.
Qed.

(** C4: when the stack answers the registration of a service with
    characteristics [c1, ..., cN] (distinct objects) by the handles
    [h1, ..., hN] (distinct, as attribute handles are), [add_service]
    returns, each [ci] has the handle [hi], and the handle registry maps
    [hi] to [ci], for every position i and any N. *)
Theorem C4_handles_zip {A : Type} (m : machine A) (service : BLEService)
    (handles : list Z) (others : list (list Z)) :
  gatts_register_services (ble m) (service_uuid service)
    (map (fun char => (uuid (heap m char), flags (heap m char)))
         (characteristics service)) = Ok (handles :: others) ->
  length handles = length (characteristics service) ->
  NoDup (characteristics service) ->
  NoDup handles ->
  let r := add_service service m in
  returns r
  /\ forall (i : nat) (char : ref) (h : Z),
       characteristics service !! i = Some char ->
       handles !! i = Some h ->
       handle (heap (snd r) char) = Some h
       /\ characteristic_handles (self (snd r)) !! h = Some char.
Proof.
  intros Hanswer Hlen Hchars Hhandles. unfold add_service, ble_gatts_register_services.
  run. rewrite Hanswer. run. unfold subscript. run.
  set (m1 := with_ble _ _).
  assert (Hfst : NoDup (zip (characteristics service) handles).*1).
  { rewrite fst_zip by lia. exact Hchars. }
  assert (Hsnd : NoDup (zip (characteristics service) handles).*2).
  { rewrite snd_zip by lia. exact Hhandles. }
  destruct (assign_handles_loop (A:=A) _ Hfst Hsnd m1) as (m' & Hrun & Hin & _).
  rewrite Hrun. simpl. split; [exact I|].
  intros i char h Hchar Hh. apply Hin.
  apply list_elem_of_lookup. exists i.
  apply lookup_zip_with_Some. by exists char, h.
Qed.

Lemma C4_handles_zip_witness :
  let service := {| service_uuid := BLE_RANGER_SERVICE_UUID;
                    characteristics := [0%nat; 1%nat] |} in
  let m := snd (BLEManager_init "draw bot" 4 (radio_answering "" [[9; 11]])
                  {| channel_callbacks := ∅; output := []; user := ([] : app) |}) in
  let r := add_service service m in
  returns r
  /\ forall (i : nat) (char : ref) (h : Z),
       characteristics service !! i = Some char ->
       [9; 11] !! i = Some h ->
       handle (heap (snd r) char) = Some h
       /\ characteristic_handles (self (snd r)) !! h = Some char.
Proof.
  intros service m.
  apply (C4_handles_zip m service [9; 11] []).
  - reflexivity.
  - reflexivity.
  - apply (bool_decide_unpack _). vm_compute. exact I.
  - apply (bool_decide_unpack _). vm_compute. exact I.
Defined.

(** ** Notification *)

(** Nested loops walk through the concatenation. *)
Lemma for_until_flat_map {S T X} (f : T -> list X) (body : X -> M S flow)
    (l : list T) (s : S) :
  for_until l (fun x => for_until (f x) body) s = for_until (flat_map f l) body s.
Proof.
  revert s. induction l as [|x l IH]; intros s; simpl; [done|].
  rewrite for_until_app. unfold bind.
  destruct (for_until (f x) body s) as [[[]|e] s']; simpl; auto.
Qed.

(** Characteristics with another UUID are passed over. *)
Lemma notify_passes_over {A : Type} (char_uuid : UUID) (v : string)
    (chars : list ref) (m : machine A) :
  Forall (fun char => uuid (heap m char) <> char_uuid) chars ->
  for_until chars (notify_characteristic char_uuid v) m = (Ok Next, m).
Proof.
  induction 1 as [|char chars Hchar _ IH]; simpl; [done|].
  unfold bind at 1. unfold notify_characteristic at 1. unfold bind, gets. simpl.
  destruct (decide (uuid (heap m char) = char_uuid)) as [Heq|_]; [done|].
  simpl. exact IH.
Qed.

(** The loop over the connections makes one stack call for each. *)
Lemma notify_connections_loop {A : Type} (char : ref) (h : Z) (v : string)
    (conns : list Z) :
  forall m : machine A,
  handle (heap m char) = Some h ->
  exists m',
    for_each conns (notify_connection char v) m = (Ok tt, m')
    /\ self m' = self m /\ heap m' = heap m
    /\ calls (ble m') = calls (ble m) ++ ((fun conn => Gatts_notify conn h v) <$> conns).
Proof.
  induction conns as [|conn conns IH]; intros m Hh.
  - exists m. simpl. by rewrite app_nil_r.
  - destruct (IH (with_ble (log_call (Gatts_notify conn h v)) m) Hh)
      as (m' & Hrun & Hself & Hheap & Hcalls).
    exists m'. split; [|split; [|split]]; try done.
    + simpl. unfold bind at 1. unfold notify_connection at 1.
      unfold bind, gets, ble_gatts_notify. simpl. rewrite Hh.
      unfold modify. simpl. exact Hrun.
    + rewrite Hcalls. simpl. by rewrite <- app_assoc.
Qed.

(** C7 fails as stated: a characteristic can be listed in a service and
    have no handle (the stack rejected the registration of the service
    after [add_service] had appended it).  With a central connected,
    [notify] for its UUID stores the value and then raises [TypeError]
    at the first [gatts_notify(conn, None, value)].  Taken as registered
    (it is listed), it is not notified once per connection: no call is
    accepted and [notify] raises.  Taken as not registered (it has no
    handle and the handle registry is empty), the state changes all the
    same and nothing is printed. *)
Lemma C7_counterexample :
  let m := orphaned (Py.OSError 12) in
  let r := notify (example_uuid 241) "21.5" m in
  (listed_characteristics m = [0%nat]
   /\ uuid (heap m 0%nat) = example_uuid 241
   /\ handle (heap m 0%nat) = None
   /\ map_to_list (characteristic_handles (self m)) = []
   /\ elements (connections (self m)) = [64]
   /\ value (heap m 0%nat) = "")
  /\ fst r = Exc Py.TypeError
  /\ value (heap (snd r) 0%nat) = "21.5"
  /\ calls (ble (snd r)) = calls (ble m)
  /\ trace (snd r) = trace m.
Proof. vm_compute. done. Qed.

(** C7 (amended): when no characteristic listed in the services has the
    UUID, [notify] makes no stack call, changes nothing and prints that
    the characteristic was not found; when one has it (the first in the
    order of the services) and its handle was assigned, [notify] stores
    the value in that characteristic and calls [gatts_notify] exactly
    once for each connection id of the connection set. *)
Theorem C7_notify {A : Type} (m : machine A) (char_uuid : UUID) (v : string) :
  (Forall (fun char => uuid (heap m char) <> char_uuid) (listed_characteristics m) ->
   notify char_uuid v m
   = (Ok tt, with_trace (fun t => t ++ [Print (CharacteristicNotFound char_uuid)]) m))
  /\ (forall (before : list ref) (char : ref) (after : list ref) (h : Z),
        listed_characteristics m = before ++ char :: after ->
        Forall (fun c => uuid (heap m c) <> char_uuid) before ->
        uuid (heap m char) = char_uuid ->
        handle (heap m char) = Some h ->
        let r := notify char_uuid v m in
        let sent := (fun conn => Gatts_notify conn h v) <$> elements (connections (self m)) in
        returns r
        /\ value (heap (snd r) char) = v
        /\ (forall other, other <> char -> heap (snd r) other = heap m other)
        /\ self (snd r) = self m
        /\ calls (ble (snd r)) = calls (ble m) ++ sent
        /\ NoDup sent
        /\ (forall conn, Gatts_notify conn h v ∈ sent <-> conn ∈ connections (self m))).
Proof.
  split.
  - intros Hnone. unfold notify. unfold bind at 1. unfold gets at 1. simpl.
    unfold bind at 1.
    rewrite (for_until_flat_map characteristics).
    fold (listed_characteristics m).
    by rewrite notify_passes_over.
  - intros before char after h Hlisted Hbefore Huuid Hh r sent.
    set (m1 := with_heap (update char (with_value v)) m).
    assert (Hh1 : handle (heap m1 char) = Some h).
    { subst m1. simpl. unfold update. by rewrite Nat.eqb_refl. }
    destruct (notify_connections_loop char h v (elements (connections (self m))) m1 Hh1)
      as (m' & Hrun & Hself & Hheap & Hcalls).
    assert (Hr : r = (Ok tt, with_trace (fun t => t ++ [Print (NotificationSent char_uuid v)]) m')).
    { subst r. unfold notify. unfold bind at 1. unfold gets at 1. simpl.
      unfold bind at 1.
      rewrite (for_until_flat_map characteristics).
      fold (listed_characteristics m). rewrite Hlisted, for_until_app.
      rewrite notify_passes_over by done.
      simpl. unfold bind at 1. unfold notify_characteristic at 1.
      unfold bind at 1. unfold gets at 1. simpl.
      destruct (decide (uuid (heap m char) = char_uuid)) as [_|Hne]; [|done].
      unfold bind at 1. unfold set_value, modify at 1. simpl.
      unfold bind at 1. unfold gets at 1. simpl.
      unfold bind at 1. fold m1. rewrite Hrun.
      unfold bind, print, emit, modify, ret. simpl. done. }
    rewrite Hr. simpl. rewrite Hself, Hheap, Hcalls. subst m1. simpl.
    split; [exact I|]. split.
    { unfold update. by rewrite Nat.eqb_refl. }
    split.
    { intros other Hne. unfold update.
      destruct (Nat.eqb_spec other char); [done|reflexivity]. }
    split; [done|]. split; [done|]. split.
    + apply NoDup_fmap_2; [|apply NoDup_elements].
      intros c1 c2 Heq. by injection Heq.
    + intros conn. subst sent. rewrite list_elem_of_fmap. split.
      * intros (c & Heq & Hin). injection Heq as ->. by apply elem_of_elements.
      * intros Hin. exists conn. split; [done|]. by apply elem_of_elements.
Qed.

(** With the connections 5 and 9: two calls; and an unknown UUID: none. *)
Lemma C7_notify_witness :
  let m := snd ((_irq_handler 1 [5] ;; _irq_handler 1 [9]) (bot "")) in
  notify (example_uuid 242) "hi" m
  = (Ok tt, with_trace (fun t => t ++ [Print (CharacteristicNotFound (example_uuid 242))]) m)
  /\ (let r := notify BLE_RANGER_TX_CHAR_UUID "hi" m in
      returns r
      /\ value (heap (snd r) 1%nat) = "hi"
      /\ calls (ble (snd r))
         = calls (ble m)
           ++ ((fun conn => Gatts_notify conn 11 "hi") <$> elements (connections (self m)))
      /\ length ((fun conn => Gatts_notify conn 11 "hi") <$> elements (connections (self m)))
         = 2%nat).
Proof.
  intros m.
  assert (Hlisted : listed_characteristics m = [0%nat; 1%nat]) by reflexivity.
  assert (Hrx : uuid (heap m 0%nat) = BLE_RANGER_RX_CHAR_UUID) by reflexivity.
  assert (Htx : uuid (heap m 1%nat) = BLE_RANGER_TX_CHAR_UUID) by reflexivity.
  destruct (C7_notify m (example_uuid 242) "hi") as [Hnone _].
  destruct (C7_notify m BLE_RANGER_TX_CHAR_UUID "hi") as [_ Hsome].
  split.
  - apply Hnone. rewrite Hlisted.
    repeat constructor; [rewrite Hrx|rewrite Htx]; discriminate.
  - destruct (Hsome [0%nat] 1%nat [] 11) as (Hret & Hvalue & _ & _ & Hcalls & _).
    + exact Hlisted.
    + repeat constructor. rewrite Hrx. discriminate.
    + exact Htx.
    + reflexivity.
    + split; [exact Hret|]. split; [exact Hvalue|]. split; [exact Hcalls|].
      reflexivity.
Defined.

(** ** The router as a write callback *)

Section RouterReturns.

Context {U : Type}.
Variable int_of_str : string -> option Z.

Lemma handle_command_returns (command : string) (r : BLERanger U) :
  tame r ->
  exists f r', handle_command int_of_str command r = (Ok f, r')
               /\ channel_callbacks r' = channel_callbacks r.
Proof.
  intros Htame. unfold handle_command.
  destruct (0 <? String.length command)%nat; [|by exists Next, r].
  destruct (split_upto ":" command) as [fields ->].
  unfold bind, try_except, subscript, int, gets, rlog, modify, ucall, ret, raise.
  simpl.
  destruct (int_of_str (Py.upto ":" command)) as [channel|]; simpl;
    [|by eexists _, _].
  destruct fields as [|data more]; simpl; [by eexists _, _|].
  destruct (channel_callbacks r !! channel) as [callback|] eqn:Hcb; simpl;
    [|by eexists _, _].
  destruct (callback channel data (user r)) as [[[]|e] u] eqn:Hrun; simpl;
    [by eexists _, _|].
  rewrite (Htame channel callback data (user r) e u Hcb Hrun). simpl.
  by eexists _, _.
Qed.

Lemma for_until_returns (commands : list string) :
  forall r : BLERanger U,
  tame r ->
  exists f r', for_until commands (handle_command int_of_str) r = (Ok f, r').
Proof.
  induction commands as [|command commands IH]; intros r Htame; simpl.
  - by exists Next, r.
  - unfold bind.
    destruct (handle_command_returns command r Htame) as (f & r' & -> & Hsame).
    destruct f; [|by exists Leave, r'].
    apply IH. unfold tame in *. rewrite Hsame. exact Htame.
Qed.

(** With a valid UTF-8 value and channel callbacks that raise nothing
    but exceptions derived from [Exception], [on_write] returns. *)
Lemma on_write_returns (conn_handle : Z) (char : ref) (v : string) (r : BLERanger U) :
  Py.utf8_check v = true ->
  tame r ->
  returns (on_write int_of_str conn_handle char v r).
Proof.
  intros Hutf Htame. unfold on_write, decode, Py.decode, write_handler, returns.
  rewrite Hutf. unfold bind, ret. simpl.
  by destruct (for_until_returns (Py.split ";" v) r Htame) as (f & r' & ->).
Qed.

End RouterReturns.

(* ===================================================================== *)
(** * Further properties of the channel router                            *)
(* ===================================================================== *)

Lemma split_cat (sep : ascii) (s1 s2 : string) :
  Py.split sep (s1 +:+ String sep s2) = Py.split sep s1 ++ Py.split sep s2.
Proof.
  induction s1 as [|c s1 IH]; simpl.
  - by rewrite Ascii.eqb_refl.
  - destruct (Ascii.eqb c sep); [by rewrite IH|].
    rewrite IH. by destruct (split_upto sep s1) as [fields ->].
Qed.

Lemma split_join (sep : ascii) (fields : list string) :
  fields <> [] ->
  Forall (fun f => Py.contains sep f = false) fields ->
  Py.split sep (join sep fields) = fields.
Proof.
  intros Hne Hall. induction Hall as [|f fs Hf Hfs IH]; [done|].
  destruct fs as [|g fs].
  - simpl. by apply split_no_sep.
  - change (join sep (f :: g :: fs)) with (f +:+ String sep (join sep (g :: fs))).
    rewrite split_app by done. by rewrite IH.
Qed.

Section RouterMore.

Context {U : Type}.
Variable int_of_str : string -> option Z.

(** An empty command is passed over. *)
Lemma handle_command_empty (r : BLERanger U) :
  handle_command int_of_str "" r = (Ok Next, r).
Proof. reflexivity. Qed.

(** What the loop over the commands yields, as [write_handler] returns it. *)
Lemma write_handler_loop (v : string) (r : BLERanger U) :
  write_handler int_of_str v r
  = match for_until (Py.split ";" v) (handle_command int_of_str) r with
    | (Ok _, r') => (Ok tt, r')
    | (Exc e, r') => (Exc e, r')
    end.
Proof.
  unfold write_handler, bind, ret.
  by destruct (for_until _ _ r) as [[f|e] r'].
Qed.

(** X1: a batch [v1;v2] is processed as [v1] followed, unless a command
    of [v1] ended the batch or raised, by [v2] on the state [v1] left. *)
Theorem write_handler_cat (v1 v2 : string) (r : BLERanger U) :
  write_handler int_of_str (v1 +:+ ";" +:+ v2) r
  = match for_until (Py.split ";" v1) (handle_command int_of_str) r with
    | (Ok Next, r') => write_handler int_of_str v2 r'
    | (Ok Leave, r') => (Ok tt, r')
    | (Exc e, r') => (Exc e, r')
    end.
Proof.
  rewrite write_handler_loop.
  change (v1 +:+ ";" +:+ v2) with (v1 +:+ String ";" v2).
  rewrite split_cat, for_until_app.
  destruct (for_until (Py.split ";" v1) _ r) as [[[]|e] r']; reflexivity.
Qed.

(** X2: empty segments do not count: a separator at the end or at the
    start of a batch and a doubled separator inside it change nothing. *)
Theorem write_handler_empty_segments (v v1 v2 : string) (r : BLERanger U) :
  write_handler int_of_str (v +:+ ";") r = write_handler int_of_str v r
  /\ write_handler int_of_str (";" +:+ v) r = write_handler int_of_str v r
  /\ write_handler int_of_str (v1 +:+ ";;" +:+ v2) r
     = write_handler int_of_str (v1 +:+ ";" +:+ v2) r.
Proof.
  rewrite !write_handler_loop. split; [|split].
  - change (v +:+ ";") with (v +:+ String ";" ""). rewrite split_cat, for_until_app.
    by destruct (for_until (Py.split ";" v) _ r) as [[[]|e] r'].
  - reflexivity.
  - change (v1 +:+ ";;" +:+ v2) with (v1 +:+ String ";" (String ";" v2)).
    change (v1 +:+ ";" +:+ v2) with (v1 +:+ String ";" v2).
    rewrite !split_cat, !for_until_app.
    by destruct (for_until (Py.split ";" v1) _ r) as [[[]|e] r'].
Qed.

(** One command only adds to the output and raises nothing that derives
    from [Exception]; with the channel callbacks acting on the state of
    the application, as [ucall] has them, it keeps the channel registry
    too. *)
Lemma handle_command_frame (command : string) (r : BLERanger U) :
  let res := handle_command int_of_str command r in
  channel_callbacks (snd res) = channel_callbacks r
  /\ (exists more, output (snd res) = output r ++ more)
  /\ (forall e, fst res = Exc e -> Py.is_Exception e = false).
Proof.
  unfold handle_command.
  destruct (0 <? String.length command)%nat;
    [|simpl; repeat split; [by exists []; rewrite app_nil_r|done]].
  destruct (split_upto ":" command) as [fields ->].
  unfold bind, try_except, subscript, int, gets, rlog, modify, ucall, ret, raise.
  simpl.
  destruct (int_of_str (Py.upto ":" command)) as [channel|]; simpl;
    [|repeat split; [by eexists|done]].
  destruct fields as [|data more]; simpl; [repeat split; [by eexists|done]|].
  destruct (channel_callbacks r !! channel) as [callback|]; simpl;
    [|repeat split; [by eexists|done]].
  destruct (callback channel data (user r)) as [[[]|e] u]; simpl;
    [repeat split; [by eexists|done]|].
  destruct (Py.is_Exception e) eqn:He; simpl.
  - repeat split; [|done]. rewrite <- app_assoc. by eexists.
  - repeat split; [by eexists|]. by intros ? [= <-].
Qed.

Lemma for_until_frame (commands : list string) :
  forall r : BLERanger U,
  let res := for_until commands (handle_command int_of_str) r in
  channel_callbacks (snd res) = channel_callbacks r
  /\ (exists more, output (snd res) = output r ++ more)
  /\ (forall e, fst res = Exc e -> Py.is_Exception e = false).
Proof.
  induction commands as [|command commands IH]; intros r; simpl.
  - repeat split; [by exists []; rewrite app_nil_r|done].
  - unfold bind.
    destruct (handle_command_frame command r) as (Hreg & [more Hout] & Hexc).
    destruct (handle_command int_of_str command r) as [[[]|e] r1]; simpl in *.
    + destruct (IH r1) as (Hreg' & [more' Hout'] & Hexc').
      split; [congruence|]. split; [|done].
      exists (more ++ more'). by rewrite Hout', Hout, app_assoc.
    + repeat split; [done| by exists more |done].
    + repeat split; [done| by exists more |done].
Qed.

(** X3: whatever the text, [write_handler] only appends to what was
    printed and called, and raises nothing that derives from
    [Exception] (so never the [ValueError] or [IndexError] of a
    malformed command, nor the [Exception] of a channel callback). *)
Theorem write_handler_frame (v : string) (r : BLERanger U) :
  let res := write_handler int_of_str v r in
  (exists more, output (snd res) = output r ++ more)
  /\ (forall e, fst res = Exc e -> Py.is_Exception e = false).
Proof.
  intros res. subst res. rewrite write_handler_loop.
  destruct (for_until_frame (Py.split ";" v) r) as (_ & Hout & Hexc).
  destruct (for_until (Py.split ";" v) _ r) as [[f|e] r']; simpl in *.
  - split; [exact Hout|]. intros e H. discriminate H.
  - split; [exact Hout|]. intros e0 [= <-]. by apply Hexc.
Qed.

End RouterMore.

Lemma contains_append (sep : ascii) (s1 s2 : string) :
  Py.contains sep (s1 +:+ s2) = Py.contains sep s1 || Py.contains sep s2.
Proof.
  induction s1 as [|c s1 IH]; simpl; [done|].
  by rewrite IH, orb_assoc.
Qed.

Section RouterDispatch.

Context {U : Type}.
Variable int_of_str : string -> option Z.

(** A command [tok:data] without further colon, for a registered
    channel whose callback returns. *)
Lemma handle_command_plain (tok data : string) (channel : Z)
    (callback : Z -> string -> M U unit) (u : U) (r : BLERanger U) :
  Py.contains ":" tok = false ->
  Py.contains ":" data = false ->
  int_of_str tok = Some channel ->
  channel_callbacks r !! channel = Some callback ->
  callback channel data (user r) = (Ok tt, u) ->
  handle_command int_of_str (command_text tok data) r
  = (Ok Next, with_user u (logged (Call_channel channel data) r)).
Proof.
  intros Htok Hdata Hint Hcb Hrun.
  rewrite (handle_command_registered int_of_str _ tok data [] channel callback r).
  - simpl. by rewrite Hrun.
  - apply append_colon_nonempty.
  - unfold command_text. change (tok +:+ ":" +:+ data) with (tok +:+ String ":" data).
    by rewrite split_app, split_no_sep.
  - done.
  - done.
Qed.

Lemma dispatch_loop (commands : list (string * Z * string)) :
  forall r : BLERanger U,
  Forall (well_formed int_of_str) commands ->
  Forall (served r) commands ->
  exists r',
    for_until (map (fun c => command_text c.1.1 c.2) commands)
              (handle_command int_of_str) r = (Ok Next, r')
    /\ channel_callbacks r' = channel_callbacks r
    /\ output r' = output r ++ map (fun c => Call_channel c.1.2 c.2) commands.
Proof.
  induction commands as [|[[tok channel] data] commands IH]; intros r Hwf Hserved.
  - exists r. simpl. by rewrite app_nil_r.
  - apply Forall_cons in Hwf as [(Htok & _ & Hdata & _ & Hint) Hwf].
    apply Forall_cons in Hserved as [(callback & Hcb & Hrun) Hserved].
    simpl in *. destruct (Hrun data (user r)) as [u Hu].
    set (r1 := with_user u (logged (Call_channel channel data) r)).
    destruct (IH r1 Hwf) as (r' & Hloop & Hreg & Hout).
    { eapply Forall_impl; [exact Hserved|]. intros c Hc. exact Hc. }
    exists r'. unfold bind.
    rewrite (handle_command_plain tok data channel callback u r) by done.
    fold r1. rewrite Hloop. split; [done|]. split; [done|].
    rewrite Hout. subst r1. simpl. by rewrite <- app_assoc.
Qed.

(** X4: a batch of well-formed commands for channels whose callbacks
    return is dispatched completely and in order: one call per command,
    with its channel and its data, and nothing else is printed or
    called. *)
Theorem write_handler_in_order (commands : list (string * Z * string))
    (r : BLERanger U) :
  Forall (well_formed int_of_str) commands ->
  Forall (served r) commands ->
  let v := join ";" (map (fun c => command_text c.1.1 c.2) commands) in
  fst (write_handler int_of_str v r) = Ok tt
  /\ output (snd (write_handler int_of_str v r))
     = output r ++ map (fun c => Call_channel c.1.2 c.2) commands.
Proof.
  intros Hwf Hserved v. subst v.
  destruct commands as [|c commands]; [simpl; by rewrite app_nil_r|].
  rewrite write_handler_loop, split_join.
  - destruct (dispatch_loop (c :: commands) r Hwf Hserved) as (r' & -> & _ & Hout).
    done.
  - done.
  - apply Forall_map. eapply Forall_impl; [exact Hwf|].
    intros [[tok channel] data] (_ & Htok & _ & Hdata & _). simpl in *.
    unfold command_text. rewrite !contains_append, Htok, Hdata. reflexivity.
Qed.

(** X5: after [register_channel(channel, callback)], whatever was
    registered for the channel before, a command for that channel calls
    [callback]; the callbacks of the other channels stay, and so does
    the manager. *)
Theorem register_channel_last_wins (m : machine (BLERanger U)) (channel : Z)
    (callback : Z -> string -> M U unit) (tok data : string) :
  Py.contains ":" tok = false ->
  Py.contains ":" data = false ->
  int_of_str tok = Some channel ->
  let m' := snd (register_channel channel callback m) in
  handle_command int_of_str (command_text tok data) (env m')
  = (let r1 := logged (Call_channel channel data) (env m') in
     match callback channel data (user (env m)) with
     | (Ok _, u) => (Ok Next, with_user u r1)
     | (Exc e, u) =>
         if Py.is_Exception e
         then (Ok Leave, logged (Print (FailedToHandle e)) (with_user u r1))
         else (Exc e, with_user u r1)
     end)
  /\ (forall other, other <> channel ->
        channel_callbacks (env m') !! other = channel_callbacks (env m) !! other)
  /\ self m' = self m /\ heap m' = heap m /\ ble m' = ble m.
Proof.
  intros Htok Hdata Hint m'. split; [|split; [|done]].
  - rewrite (handle_command_registered int_of_str _ tok data [] channel callback (env m')).
    + reflexivity.
    + apply append_colon_nonempty.
    + unfold command_text. change (tok +:+ ":" +:+ data) with (tok +:+ String ":" data).
      by rewrite split_app, split_no_sep.
    + done.
    + subst m'. simpl. apply lookup_insert_eq.
  - intros other Hother. subst m'. simpl. by apply lookup_insert_ne.
Qed.

End RouterDispatch.

(** The batch of the wire-format example. *)
Lemma write_handler_in_order_witness :
  let commands := [("1", 1, "up"); ("2", 2, "left"); ("3", 3, "")] in
  join ";" (map (fun c => command_text c.1.1 c.2) commands) = "1:up;2:left;3:"
  /\ fst (write_handler Py.int "1:up;2:left;3:" three_channels) = Ok tt
  /\ output (snd (write_handler Py.int "1:up;2:left;3:" three_channels))
     = output three_channels
       ++ [Call_channel 1 "up"; Call_channel 2 "left"; Call_channel 3 ""].
Proof.
  intros commands. split; [reflexivity|].
  apply (write_handler_in_order Py.int commands three_channels).
  - repeat constructor.
  - repeat constructor; (exists channel_callback; split; [reflexivity|]);
      intros data u; eexists; reflexivity.
Defined.

Lemma register_channel_last_wins_witness :
  let m := snd (register_channel 1 (failing_channel Py.ValueError) (bot "")) in
  let m' := snd (register_channel 1 channel_callback m) in
  handle_command Py.int (command_text "1" "up") (env m')
  = (Ok Next, with_user [DataReceived 1 "up"] (logged (Call_channel 1 "up") (env m'))).
Proof.
  intros m m'.
  apply (proj1 (register_channel_last_wins Py.int m 1 channel_callback "1" "up"
                  eq_refl eq_refl eq_refl)).
Defined.

(* ===================================================================== *)
(** * Further properties of the dispatcher                                *)
(* ===================================================================== *)

(** What one event does to the connection set, whatever the callbacks do. *)
Lemma irq_connection_step {A : Type} (event : Z) (data : list Z) (m : machine A) :
  connections (self (snd (_irq_handler event data m)))
  = connection_step (connections (self m)) (event, data).
Proof.
  unfold _irq_handler, connection_step. simpl.
  destruct (event =? 1).
  { destruct data as [|conn rest]; [reflexivity|]. run.
    destruct (connect_callback (self m)) as [cb|]; run; [|reflexivity].
    by destruct (cb conn (env m)) as [[[]|e] a]. }
  destruct (event =? 2).
  { destruct data as [|conn rest]; [reflexivity|]. unfold start. run.
    destruct (disconnect_callback (self m)) as [cb|]; run; [|reflexivity].
    by destruct (cb conn (env m)) as [[[]|e] a]. }
  destruct (event =? 3); [|by destruct data].
  destruct data as [|conn [|attr [|x rest]]]; try reflexivity. run.
  destruct (Py.decode (gatts_read (ble m) attr)); run; [|reflexivity].
  destruct (characteristic_handles (self m) !! attr) as [char|]; run; [|reflexivity].
  destruct (write_callback (heap m char)) as [cb|]; run; [|reflexivity].
  by destruct (cb conn char (gatts_read (ble m) attr) (env m)) as [[[]|e] a].
Qed.

(** X6: after any sequence of events the connection set holds exactly
    the ids the connect and disconnect events of the sequence leave in
    it; write events, events of other kinds and failing callbacks do not
    touch it. *)
Theorem deliver_connections {A : Type} (events : list (Z * list Z)) (m : machine A) :
  connections (self (deliver events m))
  = connected_after events (connections (self m)).
Proof.
  revert m. induction events as [|[event data] events IH]; intros m; [reflexivity|].
  simpl. rewrite IH, irq_connection_step. reflexivity.
Qed.

(** X7: a write event for a handle that is not in the registry, or
    whose characteristic has no write callback, is dropped: the value is
    read and printed, no callback is called, and the manager, the
    characteristics and the application are left as they were. *)
Theorem write_event_dropped {A : Type} (m : machine A) (conn attr : Z) :
  Py.utf8_check (gatts_read (ble m) attr) = true ->
  (characteristic_handles (self m) !! attr = None
   \/ exists char, characteristic_handles (self m) !! attr = Some char
                   /\ write_callback (heap m char) = None) ->
  _irq_handler 3 [conn; attr] m
  = (Ok tt,
     with_trace (fun t => t ++ [Print (WrittenText (gatts_read (ble m) attr))])
       (with_ble (log_call (Gatts_read attr)) m)).
Proof.
  intros Hutf Hmiss. unfold _irq_handler. run.
  unfold Py.decode. rewrite Hutf. run.
  destruct Hmiss as [Hnone|(char & Hchar & Hcb)].
  - by rewrite Hnone.
  - rewrite Hchar. run. by rewrite Hcb.
Qed.

Lemma write_event_dropped_witness :
  _irq_handler 3 [64; 11] (bot "hello")
  = (Ok tt,
     with_trace (fun t => t ++ [Print (WrittenText (gatts_read (ble (bot "hello")) 11))])
       (with_ble (log_call (Gatts_read 11)) (bot "hello"))).
Proof.
  apply write_event_dropped; [reflexivity|].
  right. exists 1%nat. split; reflexivity.
Defined.

(** X8: a write event for the handle of a characteristic whose write
    callback is the router's [on_write] hands the decoded text to
    [write_handler]: the event ends as [write_handler] ends, on the
    router state it leaves. *)
Theorem write_event_routed {U : Type} (int_of_str : string -> option Z)
    (m : machine (BLERanger U)) (conn attr : Z) (char : ref) :
  Py.utf8_check (gatts_read (ble m) attr) = true ->
  characteristic_handles (self m) !! attr = Some char ->
  write_callback (heap m char) = Some (on_write int_of_str) ->
  let v := gatts_read (ble m) attr in
  _irq_handler 3 [conn; attr] m
  = (fst (write_handler int_of_str v (env m)),
     with_env (fun _ => snd (write_handler int_of_str v (env m)))
       (with_trace (fun t => t ++ [Print (WrittenText v); Call_write conn char v])
          (with_ble (log_call (Gatts_read attr)) m))).
Proof.
  intros Hutf Hchar Hcb v. subst v. unfold _irq_handler. run.
  unfold Py.decode. rewrite Hutf. run. rewrite Hchar. run. rewrite Hcb. run.
  unfold on_write, decode, Py.decode. rewrite Hutf. unfold bind, ret. simpl.
  destruct (write_handler int_of_str (gatts_read (ble m) attr) (env m)) as [res r'].
  simpl. unfold with_env, with_trace. simpl. by rewrite <- app_assoc.
Qed.

Lemma write_event_routed_witness :
  let m := bot "1:up" in
  _irq_handler 3 [64; 9] m
  = (fst (write_handler Py.int "1:up" (env m)),
     with_env (fun _ => snd (write_handler Py.int "1:up" (env m)))
       (with_trace (fun t => t ++ [Print (WrittenText "1:up"); Call_write 64 0%nat "1:up"])
          (with_ble (log_call (Gatts_read 9)) m))).
Proof.
  intros m.
  apply (write_event_routed Py.int m 64 9 0%nat); reflexivity.
Defined.

(* ===================================================================== *)
(** * Further properties of the manager                                   *)
(* ===================================================================== *)

(** The loop of [add_service] assigns handles and registers them; it
    leaves the list of services and the connection set alone. *)
Lemma assign_handles_keeps {A : Type} (pairs : list (ref * Z)) :
  forall m : machine A,
  services (self (snd (for_each pairs assign_handle m))) = services (self m)
  /\ connections (self (snd (for_each pairs assign_handle m))) = connections (self m).
Proof.
  induction pairs as [|[char h] pairs IH]; intros m; [done|].
  destruct (IH (with_self (with_characteristic_handles (fun d => <[h := char]> d))
                  (with_heap (update char (with_handle (Some h))) m))) as [Hs Hc].
  change (for_each ((char, h) :: pairs) assign_handle m)
    with (for_each pairs assign_handle
            (with_self (with_characteristic_handles (fun d => <[h := char]> d))
               (with_heap (update char (with_handle (Some h))) m))).
  by rewrite Hs, Hc.
Qed.

(** X9: [zip] stops at the shorter list.  When the stack returns fewer
    handles than the service has characteristics, [add_service] still
    returns: the first characteristics get the handles in order, the
    remaining ones are left as they were (without a handle if they had
    none), and nothing else changes: other characteristic objects,
    other registry entries, the services listed before. *)
Theorem add_service_fewer_handles {A : Type} (m : machine A) (service : BLEService)
    (handles : list Z) (others : list (list Z)) :
  gatts_register_services (ble m) (service_uuid service)
    (map (fun char => (uuid (heap m char), flags (heap m char)))
         (characteristics service)) = Ok (handles :: others) ->
  (length handles <= length (characteristics service))%nat ->
  NoDup (characteristics service) ->
  NoDup handles ->
  let r := add_service service m in
  returns r
  /\ (forall (i : nat) (char : ref) (h : Z),
        characteristics service !! i = Some char ->
        handles !! i = Some h ->
        handle (heap (snd r) char) = Some h
        /\ characteristic_handles (self (snd r)) !! h = Some char)
  /\ (forall (i : nat) (char : ref),
        characteristics service !! i = Some char ->
        (length handles <= i)%nat ->
        heap (snd r) char = heap m char)
  /\ (forall char, char ∉ characteristics service -> heap (snd r) char = heap m char)
  /\ (forall h, h ∉ handles ->
        characteristic_handles (self (snd r)) !! h = characteristic_handles (self m) !! h)
  /\ services (self (snd r)) = services (self m) ++ [service].
Proof.
  intros Hanswer Hlen Hchars Hhandles. unfold add_service, ble_gatts_register_services.
  run. rewrite Hanswer. run. unfold subscript. run.
  set (m1 := with_ble _ _).
  set (pairs := zip (characteristics service) handles).
  assert (Hfst : pairs.*1 = take (length handles) (characteristics service)).
  { subst pairs. rewrite <- (zip_with_take_l pair (characteristics service) handles).
    apply fst_zip. rewrite length_take. lia. }
  assert (Hsnd : pairs.*2 = handles) by (subst pairs; apply snd_zip; lia).
  assert (Hnd1 : NoDup pairs.*1).
  { rewrite Hfst. apply (sublist_NoDup _ _ Hchars). apply sublist_take. }
  assert (Hnd2 : NoDup pairs.*2) by (rewrite Hsnd; exact Hhandles).
  destruct (assign_handles_loop (A:=A) pairs Hnd1 Hnd2 m1)
    as (m' & Hrun & Hin & Hheap & Hreg & _ & _).
  destruct (assign_handles_keeps pairs m1) as [Hserv _].
  rewrite Hrun in Hserv |- *. simpl in *.
  split; [exact I|]. split; [|split; [|split; [|split]]].
  - intros i char h Hchar Hh. apply Hin. apply list_elem_of_lookup. exists i.
    apply lookup_zip_with_Some. by exists char, h.
  - intros i char Hchar Hi. rewrite Hheap; [done|].
    rewrite Hfst. intros (j & Hj & Hlt)%elem_of_take.
    pose proof (NoDup_lookup _ _ _ _ Hchars Hchar Hj). lia.
  - intros char Hout. rewrite Hheap; [done|].
    rewrite Hfst. intros Hin'%elem_of_take. destruct Hin' as (j & Hj & _).
    apply Hout. apply list_elem_of_lookup. by exists j.
  - intros h Hout. rewrite Hreg; [done|]. by rewrite Hsnd.
  - exact Hserv.
Qed.

Lemma add_service_fewer_handles_witness :
  let service := {| service_uuid := BLE_RANGER_SERVICE_UUID;
                    characteristics := [0%nat; 1%nat] |} in
  let m := snd (BLEManager_init "draw bot" 4 (radio_answering "" [[9]])
                  {| channel_callbacks := ∅; output := []; user := ([] : app) |}) in
  let r := add_service service m in
  returns r
  /\ handle (heap (snd r) 0%nat) = Some 9
  /\ heap (snd r) 1%nat = heap m 1%nat.
Proof.
  intros service m r.
  destruct (add_service_fewer_handles m service [9] []) as (Hret & Hin & Hrest & _).
  - reflexivity.
  - simpl. lia.
  - apply (bool_decide_unpack _). vm_compute. exact I.
  - apply (bool_decide_unpack _). vm_compute. exact I.
  - split; [exact Hret|]. split.
    + apply (Hin 0%nat 0%nat 9); reflexivity.
    + apply (Hrest 1%nat 1%nat); [reflexivity|simpl; lia].
Defined.

(** With a handle that was never assigned the first call on the stack
    fails before anything is sent. *)
Lemma notify_connections_unassigned {A : Type} (char : ref) (v : string)
    (conn : Z) (conns : list Z) (m : machine A) :
  handle (heap m char) = None ->
  for_each (conn :: conns) (notify_connection char v) m = (Exc Py.TypeError, m).
Proof.
  intros Hh. simpl. unfold bind at 1. unfold notify_connection at 1.
  unfold bind, gets, ble_gatts_notify, raise. simpl. by rewrite Hh.
Qed.

(** X10: [notify] for a characteristic that is listed in a service but
    has no handle (its registration failed, or the stack returned too
    few handles) stores the value first; with no central connected it
    then returns, with a central connected the first [gatts_notify]
    raises [TypeError]: the value is changed although nothing was sent
    and nothing is printed. *)
Theorem notify_unassigned {A : Type} (m : machine A) (char_uuid : UUID) (v : string)
    (before : list ref) (char : ref) (after : list ref) :
  listed_characteristics m = before ++ char :: after ->
  Forall (fun c => uuid (heap m c) <> char_uuid) before ->
  uuid (heap m char) = char_uuid ->
  handle (heap m char) = None ->
  let r := notify char_uuid v m in
  value (heap (snd r) char) = v
  /\ calls (ble (snd r)) = calls (ble m)
  /\ (connections (self m) = ∅ -> fst r = Ok tt)
  /\ (connections (self m) <> ∅ -> fst r = Exc Py.TypeError /\ trace (snd r) = trace m).
Proof.
  intros Hlisted Hbefore Huuid Hh r.
  set (m1 := with_heap (update char (with_value v)) m).
  assert (Hh1 : handle (heap m1 char) = None).
  { subst m1. simpl. unfold update. by rewrite Nat.eqb_refl. }
  assert (Hr : r = match elements (connections (self m)) with
                   | [] => (Ok tt, with_trace (fun t => t ++ [Print (NotificationSent char_uuid v)]) m1)
                   | _ :: _ => (Exc Py.TypeError, m1)
                   end).
  { subst r. unfold notify. unfold bind at 1. unfold gets at 1. simpl.
    unfold bind at 1.
    rewrite (for_until_flat_map characteristics).
    fold (listed_characteristics m). rewrite Hlisted, for_until_app.
    rewrite notify_passes_over by done.
    simpl. unfold bind at 1. unfold notify_characteristic at 1.
    unfold bind at 1. unfold gets at 1. simpl.
    destruct (decide (uuid (heap m char) = char_uuid)) as [_|Hne]; [|done].
    unfold bind at 1. unfold set_value, modify at 1. simpl.
    unfold bind at 1. unfold gets at 1. simpl.
    unfold bind at 1. fold m1.
    destruct (elements (connections (self m))) as [|conn conns].
    - simpl. unfold bind, print, emit, modify, ret. simpl. done.
    - rewrite notify_connections_unassigned by done. done. }
  assert (Hvalue : value (heap m1 char) = v).
  { subst m1. simpl. unfold update. by rewrite Nat.eqb_refl. }
  rewrite Hr.
  destruct (elements (connections (self m))) as [|conn conns] eqn:Hel; simpl.
  - split; [exact Hvalue|]. split; [done|]. split; [done|].
    intros Hne. exfalso. apply Hne. apply leibniz_equiv.
    by apply elements_empty_inv.
  - split; [exact Hvalue|]. split; [done|]. split; [|done].
    intros Hempty. rewrite Hempty, elements_empty in Hel. discriminate Hel.
Qed.

Lemma notify_unassigned_witness :
  let m := orphaned (Py.OSError 12) in
  let r := notify (example_uuid 241) "21.5" m in
  value (heap (snd r) 0%nat) = "21.5"
  /\ calls (ble (snd r)) = calls (ble m)
  /\ fst r = Exc Py.TypeError.
Proof.
  intros m r.
  destruct (notify_unassigned m (example_uuid 241) "21.5" [] 0%nat [])
    as (Hvalue & Hcalls & _ & Hraise); try reflexivity.
  - constructor.
  - split; [exact Hvalue|]. split; [exact Hcalls|].
    apply Hraise. intros Hempty.
    assert (Hin : 64 ∈ connections (self m)) by (apply elem_of_elements; vm_compute; left).
    rewrite Hempty in Hin. by apply not_elem_of_empty in Hin.
Defined.

(** X11: [set_tx_power] asks the stack once and returns whenever the
    stack accepts or fails with an exception that derives from
    [Exception] (it prints which); an exception outside [Exception]
    propagates.  In no case does it change the manager object: in
    particular [self.tx_power] keeps the value of the constructor. *)
Theorem set_tx_power_contained {A : Type} (m : machine A) (power : Z) :
  let r := set_tx_power power m in
  self (snd r) = self m
  /\ heap (snd r) = heap m
  /\ calls (ble (snd r)) = calls (ble m) ++ [Config_txpower power]
  /\ match config_txpower (ble m) power with
     | Ok _ => fst r = Ok tt /\ trace (snd r) = trace m ++ [Print (TxPowerSet power)]
     | Exc e =>
         if Py.is_Exception e
         then fst r = Ok tt /\ trace (snd r) = trace m ++ [Print (TxPowerError e)]
         else fst r = Exc e /\ trace (snd r) = trace m
     end.
Proof.
  unfold set_tx_power, ble_config_txpower. run.
  destruct (config_txpower (ble m) power) as [[]|e]; run; [done|].
  destruct (Py.is_Exception e); run; done.
Qed.

(* ===================================================================== *)
(** * Further properties of the advertising payloads                      *)
(* ===================================================================== *)

(** Reading one well-formed structure. *)
Lemma parse_ad_structure (fuel : nat) (ty : Z) (value rest : list Z) :
  parse_ad_fuel (S fuel) (ad_structure ty value ++ rest)
  = option_map (cons (ty, value)) (parse_ad_fuel fuel rest).
Proof.
  change (ad_structure ty value ++ rest)
    with ((Z.of_nat (length value) + 1) :: ty :: (value ++ rest)).
  rewrite parse_ad_fuel_step.
  replace (Z.of_nat (length value) + 1 - 1) with (Z.of_nat (length value)) by lia.
  rewrite Nat2Z.id. cbv zeta.
  replace (Z.of_nat (length value) + 1 <=? 0) with false by (symmetry; apply Z.leb_gt; lia).
  replace (length (value ++ rest) <? length value)%nat with false.
  2:{ symmetry. apply Nat.ltb_ge. rewrite length_app. lia. }
  simpl. by rewrite take_app_length, drop_app_length.
Qed.

Lemma parse_ad_structures (ty : Z) (values : list (list Z)) :
  forall fuel, (length values <= fuel)%nat ->
  parse_ad_fuel fuel (flat_map (ad_structure ty) values)
  = Some (map (fun v => (ty, v)) values).
Proof.
  induction values as [|v values IH]; intros fuel Hfuel.
  - by destruct fuel.
  - destruct fuel as [|fuel]; [simpl in Hfuel; lia|].
    change (flat_map (ad_structure ty) (v :: values))
      with (ad_structure ty v ++ flat_map (ad_structure ty) values).
    rewrite parse_ad_structure, IH by (simpl in Hfuel; lia).
    reflexivity.
Qed.

(** The payload, for UUIDs of any size that fits the length octet. *)
Lemma build_adv_payload_structures (service_uuids : list UUID) :
  Forall (fun u => (length u <= 254)%nat) service_uuids ->
  _build_adv_payload service_uuids
  = ad_structure 1 [6] ++ flat_map (ad_structure 7) service_uuids.
Proof.
  intros Hlen. unfold _build_adv_payload.
  change ([] ++ Py.bytearray [2; 1; 6]) with (ad_structure 1 [6]).
  generalize (ad_structure 1 [6]) as start.
  induction Hlen as [|u us Hu _ IH]; intros start; simpl.
  - by rewrite app_nil_r.
  - rewrite IH. unfold ad_structure at 2. simpl.
    rewrite Z.mod_small by lia. by rewrite <- app_assoc.
Qed.

(** X12: for service UUIDs of any size up to 254 bytes (16-bit, 32-bit
    or 128-bit alike) the advertising payload reads back as the flags
    structure followed by one structure of type 0x07 per UUID, in the
    order they were added, and it is 3 bytes plus, for each UUID, its
    size plus 2. *)
Theorem adv_payload_round_trip (service_uuids : list UUID) :
  Forall (fun u => (length u <= 254)%nat) service_uuids ->
  parse_ad (_build_adv_payload service_uuids)
  = Some ((1, [6]) :: map (fun u => (7, u)) service_uuids)
  /\ length (_build_adv_payload service_uuids)
     = (3 + list_sum (map (fun u => length u + 2) service_uuids))%nat.
Proof.
  intros Hlen. rewrite build_adv_payload_structures by done.
  assert (Hsize : length (flat_map (ad_structure 7) service_uuids)
                  = list_sum (map (fun u => length u + 2) service_uuids)%nat).
  { clear Hlen. induction service_uuids as [|u us IH]; [done|].
    simpl. rewrite length_app, IH. lia. }
  split.
  - unfold parse_ad. rewrite length_app.
    change (length (ad_structure 1 [6])) with 3%nat.
    change (3 + ?n)%nat with (S (2 + n)).
    rewrite parse_ad_structure, parse_ad_structures; [done|].
    rewrite Hsize. clear. induction service_uuids as [|u us IH]; simpl; lia.
  - rewrite length_app, Hsize. reflexivity.
Qed.

Lemma adv_payload_round_trip_witness :
  let uuids : list UUID := [[15; 24]; BLE_RANGER_SERVICE_UUID] in
  parse_ad (_build_adv_payload uuids) = Some ((1, [6]) :: map (fun u => (7, u)) uuids)
  /\ length (_build_adv_payload uuids)
     = (3 + list_sum (map (fun u => length u + 2) uuids))%nat.
Proof.
  intros uuids. apply adv_payload_round_trip.
  repeat constructor; simpl; lia.
Defined.

Lemma scan_response_octets (name : string) :
  _build_scan_response name
  = ((Z.of_nat (String.length name) + 1) mod 256) :: 9 :: Py.octets name.
Proof.
  unfold _build_scan_response, Py.bytearray. simpl. by rewrite length_octets.
Qed.

(** X13: the scan response reads back as one structure of type 0x09
    holding the bytes of the name exactly when the name has at most 254
    bytes; for a longer name the payload never reads back as the name. *)
Theorem scan_response_round_trip (name : string) :
  ((String.length name <= 254)%nat ->
   parse_ad (_build_scan_response name) = Some [(9, Py.octets name)])
  /\ ((255 <= String.length name)%nat ->
      parse_ad (_build_scan_response name) <> Some [(9, Py.octets name)]).
Proof.
  split.
  - intros Hlen. rewrite scan_response_octets, Z.mod_small by lia.
    pose proof (parse_ad_structure (S (length (Py.octets name))) 9 (Py.octets name) [])
      as H.
    unfold ad_structure in H. simpl app in H. rewrite app_nil_r in H.
    unfold parse_ad. simpl length.
    rewrite length_octets in *. exact H.
  - intros Hlen. rewrite scan_response_octets.
    set (k := (Z.of_nat (String.length name) + 1) mod 256).
    assert (Hk : 0 <= k < 256) by (apply Z.mod_pos_bound; lia).
    unfold parse_ad. simpl length. rewrite parse_ad_fuel_step. cbv zeta.
    destruct ((k <=? 0) || (length (Py.octets name) <? Z.to_nat (k - 1))%nat);
      [discriminate|].
    destruct (parse_ad_fuel _ _) as [l|]; [|discriminate].
    simpl. intros [= Htake _].
    apply (f_equal length) in Htake.
    rewrite length_take, length_octets in Htake. lia.
Qed.

Lemma scan_response_round_trip_witness :
  parse_ad (_build_scan_response "draw bot") = Some [(9, Py.octets "draw bot")]
  /\ parse_ad (_build_scan_response long_name) <> Some [(9, Py.octets long_name)].
Proof.
  split.
  - apply (proj1 (scan_response_round_trip "draw bot")). simpl. lia.
  - apply (proj2 (scan_response_round_trip long_name)). vm_compute. lia.
Defined.

(** X14: adding a service UUID is append-only: the payload advertised
    afterwards is the payload before followed by the structure of the
    new UUID (also when the same UUID was added before), and the scan
    response is unchanged. *)
Theorem add_service_uuid_appends {A : Type} (m : machine A) (uuid : UUID) (interval : Z) :
  let before := _build_adv_payload (service_uuids (advertising (self m))) in
  let r := (set_advertising_service uuid ;; start interval) m in
  returns r
  /\ calls (ble (snd r))
     = calls (ble m)
       ++ [Gap_advertise interval
             (before ++ Py.bytearray [Z.of_nat (length uuid) + 1; 7] ++ uuid)
             (_build_scan_response (name (advertising (self m))))]
  /\ advertised (ble (snd r))
     = Some (interval,
             before ++ Py.bytearray [Z.of_nat (length uuid) + 1; 7] ++ uuid,
             _build_scan_response (name (advertising (self m)))).
Proof.
  intros before r. subst before r.
  unfold set_advertising_service, add_service_uuid, start. run.
  unfold _build_adv_payload. rewrite fold_left_app. simpl. done.
Qed.

(* ===================================================================== *)
(** * The router on its manager                                           *)
(* ===================================================================== *)

(** X15: the closure [on_write] raises [UnicodeError] and leaves the
    router untouched (no command is looked at) when the written bytes
    are not UTF-8; otherwise it is [write_handler] on the text, and it
    returns whenever the channel callbacks raise nothing outside
    [Exception]. *)
Theorem on_write_outcome {U : Type} (int_of_str : string -> option Z)
    (conn_handle : Z) (char : ref) (v : string) (r : BLERanger U) :
  (Py.utf8_check v = false ->
   on_write int_of_str conn_handle char v r = (Exc Py.UnicodeError, r))
  /\ (Py.utf8_check v = true ->
      on_write int_of_str conn_handle char v r = write_handler int_of_str v r
      /\ (tame r -> returns (on_write int_of_str conn_handle char v r))).
Proof.
  split; intros Hutf.
  - unfold on_write, decode, Py.decode, bind, raise. by rewrite Hutf.
  - split.
    + unfold on_write, decode, Py.decode, bind, ret. by rewrite Hutf.
    + intros Htame. by apply on_write_returns.
Qed.

Lemma on_write_outcome_witness :
  on_write Py.int 64 0%nat not_utf8 (env (bot "")) = (Exc Py.UnicodeError, env (bot ""))
  /\ returns (on_write Py.int 64 0%nat "1:up;x;1:down" (env (bot ""))).
Proof.
  split.
  - apply (proj1 (on_write_outcome Py.int 64 0%nat not_utf8 (env (bot "")))).
    reflexivity.
  - apply (proj2 (on_write_outcome Py.int 64 0%nat "1:up;x;1:down" (env (bot ""))));
      [reflexivity|].
    intros channel callback data u e u' Hcb Hrun.
    assert (Hreg : channel_callbacks (env (bot "")) = {[ 1 := channel_callback ]})
      by reflexivity.
    rewrite Hreg in Hcb. apply lookup_singleton_Some in Hcb as [_ <-].
    discriminate Hrun.
Defined.

(** X16: when the stack hands out two distinct handles for the service
    of the router and the power setting does not fail outside
    [Exception], [BLERanger.__init__] returns with the RX characteristic
    (write flag, callback [on_write]) under the first handle and the TX
    characteristic (notify flag) under the second, advertising started
    at interval 100 with the service UUID in the payload and the name in
    the scan response, no channel registered and no central connected. *)
Theorem ranger_init_ready {U : Type} (int_of_str : string -> option Z)
    (nm : string) (r : radio) (u : U) (h1 h2 : Z) (others : list (list Z)) :
  (forall e, config_txpower r 4 = Exc e -> Py.is_Exception e = true) ->
  gatts_register_services r BLE_RANGER_SERVICE_UUID
    [(BLE_RANGER_RX_CHAR_UUID, FLAG_WRITE); (BLE_RANGER_TX_CHAR_UUID, FLAG_NOTIFY)]
  = Ok ([h1; h2] :: others) ->
  h1 <> h2 ->
  let res := BLERanger_init int_of_str nm r u in
  let m := snd res in
  returns res
  /\ characteristic_handles (self m) !! h1 = Some 0%nat
  /\ characteristic_handles (self m) !! h2 = Some 1%nat
  /\ write_callback (heap m 0%nat) = Some (on_write int_of_str)
  /\ handle (heap m 0%nat) = Some h1
  /\ handle (heap m 1%nat) = Some h2
  /\ advertised (ble m)
     = Some (100, _build_adv_payload [BLE_RANGER_SERVICE_UUID], _build_scan_response nm)
  /\ channel_callbacks (env m) = ∅
  /\ connections (self m) = ∅.
Proof.
  intros Hpower Hanswer Hne res m. subst m res.
  unfold BLERanger_init, BLEManager_init, set_tx_power, ble_config_txpower.
  run.
  assert (Hinit : forall m0 : machine (BLERanger U),
    gatts_register_services (ble m0) = gatts_register_services r ->
    characteristic_handles (self m0) = ∅ ->
    connections (self m0) = ∅ ->
    service_uuids (advertising (self m0)) = [] ->
    name (advertising (self m0)) = nm ->
    channel_callbacks (env m0) = ∅ ->
    let res := (modify (with_heap (fun h =>
                  update 0%nat (fun _ =>
                      {| uuid := BLE_RANGER_RX_CHAR_UUID; flags := FLAG_WRITE;
                         write_callback := Some (on_write int_of_str);
                         handle := None; value := "" |})
                    (update 1%nat (fun _ =>
                      {| uuid := BLE_RANGER_TX_CHAR_UUID; flags := FLAG_NOTIFY;
                         write_callback := None; handle := None; value := "" |}) h))) ;;
                add_service (add_characteristic
                               (add_characteristic
                                  {| service_uuid := BLE_RANGER_SERVICE_UUID;
                                     characteristics := [] |} 0%nat) 1%nat) ;;
                set_advertising_service BLE_RANGER_SERVICE_UUID ;;
                start 100) m0 in
    returns res
    /\ characteristic_handles (self (snd res)) !! h1 = Some 0%nat
    /\ characteristic_handles (self (snd res)) !! h2 = Some 1%nat
    /\ write_callback (heap (snd res) 0%nat) = Some (on_write int_of_str)
    /\ handle (heap (snd res) 0%nat) = Some h1
    /\ handle (heap (snd res) 1%nat) = Some h2
    /\ advertised (ble (snd res))
       = Some (100, _build_adv_payload [BLE_RANGER_SERVICE_UUID],
               _build_scan_response nm)
    /\ channel_callbacks (env (snd res)) = ∅
    /\ connections (self (snd res)) = ∅).
  { intros m0 Hstack Hreg Hconn Huuids Hname Hchan.
    unfold add_service, ble_gatts_register_services, set_advertising_service,
      add_service_uuid, start, add_characteristic, subscript.
    run. rewrite Hstack. simpl. rewrite Hanswer. simpl.
    unfold assign_handle. run. rewrite Hreg, Huuids, Hname, Hchan, Hconn.
    split; [exact I|].
    split; [by rewrite lookup_insert_ne, lookup_insert_eq|].
    split; [by rewrite lookup_insert_eq|].
    done. }
  destruct (config_txpower r 4) as [[]|e] eqn:Hcfg; run.
  - by apply Hinit.
  - rewrite (Hpower e eq_refl). run. by apply Hinit.
Qed.

Lemma ranger_init_ready_witness :
  let res := BLERanger_init Py.int "draw bot" (radio_answering "" [[9; 11]]) ([] : app) in
  let m := snd res in
  returns res
  /\ characteristic_handles (self m) !! 9 = Some 0%nat
  /\ characteristic_handles (self m) !! 11 = Some 1%nat
  /\ write_callback (heap m 0%nat) = Some (on_write Py.int)
  /\ handle (heap m 0%nat) = Some 9
  /\ handle (heap m 1%nat) = Some 11
  /\ advertised (ble m)
     = Some (100, _build_adv_payload [BLE_RANGER_SERVICE_UUID],
             _build_scan_response "draw bot")
  /\ channel_callbacks (env m) = ∅
  /\ connections (self m) = ∅.
Proof.
  apply (ranger_init_ready Py.int "draw bot" (radio_answering "" [[9; 11]]) [] 9 11 []).
  - intros e H. discriminate H.
  - reflexivity.
  - discriminate.
Defined.
